(** * Flask-HTTPAuth: the authentication and authorization decisions

    A shallow embedding of [flask_httpauth.py] (Basic, Digest and Token
    authenticators, the role overlay, the multi-scheme dispatcher and the
    error responder) together with the properties of its decision logic.

    Conventions.
    - A Python [str] is a [string]: a sequence of code points below 256,
      which is what WSGI hands over for header values.
    - [None] is [None] of an [option]; an exception is [Raise] of
      [py_result].
    - Flask's [request] is passed explicitly; Flask's [session] and the
      random source live in the [World] threaded through the monad [M]. *)

From Stdlib Require Import ZArith String Ascii List Bool Lia.
From stdpp Require Import base option list strings gmap.

Local Open Scope string_scope.
Local Open Scope list_scope.
Local Open Scope Z_scope.

(** ** Python values *)

Module Py.

Inductive exn : Type :=
  | TypeError
  | ValueError
  | AttributeError
  | KeyError.

#[global] Instance exn_eq_dec : EqDecision exn.
Proof. solve_decision. Defined.

Inductive py_result (A : Type) : Type :=
  | Ret (a : A)
  | Raise (e : exn).

Arguments Ret {A} a.
Arguments Raise {A} e.

(** The value returned, when there is one. *)
Definition returned {A} (r : py_result A) : option A :=
  match r with
  | Ret a => Some a
  | Raise _ => None
  end.

(** Truthiness of a string or of [None]: [None] and [""] are falsy. *)
Definition truthy_str (s : option string) : bool :=
  match s with
  | None => false
  | Some "" => false
  | Some _ => true
  end.

(** [str(x)] as [format] renders an attribute that may be [None]. *)
Definition format_opt (s : option string) : string :=
  match s with
  | None => "None"
  | Some v => v
  end.

Definition code (c : ascii) : Z := Z.of_N (N_of_ascii c).

Definition chr (z : Z) : ascii := ascii_of_N (Z.to_N z).

(** [str.isspace] on the code points below 256. *)
Definition isspace (c : ascii) : bool :=
  let n := code c in
  ((9 <=? n) && (n <=? 13)) || ((28 <=? n) && (n <=? 32))
  || (n =? 133) || (n =? 160).

(** [str.lower] on one code point below 256: the ASCII capitals and the
    Latin-1 capitals (all of 0xC0..0xDE but the multiplication sign). *)
Definition lower_char (c : ascii) : ascii :=
  let n := code c in
  if ((65 <=? n) && (n <=? 90))
     || ((192 <=? n) && (n <=? 222) && negb (n =? 215))
  then chr (n + 32)
  else c.

Fixpoint lower (s : string) : string :=
  match s with
  | EmptyString => EmptyString
  | String c s' => String (lower_char c) (lower s')
  end.

Fixpoint lstrip (s : string) : string :=
  match s with
  | EmptyString => EmptyString
  | String c s' => if isspace c then lstrip s' else s
  end.

(** The first whitespace-free run of [s] and what follows it. *)
Fixpoint span_word (s : string) : string * string :=
  match s with
  | EmptyString => (EmptyString, EmptyString)
  | String c s' =>
      if isspace c then (EmptyString, s)
      else let '(w, r) := span_word s' in (String c w, r)
  end.

(** [s.split(None, 1)]: leading whitespace is skipped, the first word is
    cut off, the whitespace after it is skipped and the remainder, when
    there is one, is kept as it is. *)
Definition split_None_1 (s : string) : list string :=
  match lstrip s with
  | EmptyString => []
  | s1 =>
      let '(w, r) := span_word s1 in
      match lstrip r with
      | EmptyString => [w]
      | rest => [w; rest]
      end
  end.

(** [a, b = xs]: unpacking into two names. *)
Definition unpack2 (xs : list string) : py_result (string * string) :=
  match xs with
  | [a; b] => Ret (a, b)
  | _ => Raise ValueError
  end.

(** [s.encode('utf-8')] on code points below 256. *)
Fixpoint encode_utf8 (s : string) : list Z :=
  match s with
  | EmptyString => []
  | String c s' =>
      let n := code c in
      if n <? 128 then n :: encode_utf8 s'
      else Z.lor 192 (Z.shiftr n 6) :: Z.lor 128 (Z.land n 63) :: encode_utf8 s'
  end.

(** The inverse of [encode_utf8] on what it produces. *)
Fixpoint decode_utf8 (bs : list Z) : string :=
  match bs with
  | [] => EmptyString
  | b :: rest =>
      if b <? 128 then String (chr b) (decode_utf8 rest)
      else
        match rest with
        | b2 :: rest' =>
            String (chr (64 * (b - 192) + (b2 - 128))) (decode_utf8 rest')
        | [] => EmptyString
        end
  end.

End Py.

Export Py.

(** ** hashlib.md5

    The digest function of RFC 1321 on a list of bytes, with 32-bit words
    held in [Z] and their wrap-around written out. *)

Module MD5.

Definition wrap32 (x : Z) : Z := x mod 2 ^ 32.

Definition add32 (x y : Z) : Z := wrap32 (x + y).

Definition not32 (x : Z) : Z := Z.lxor x 0xffffffff.

Definition rotl32 (x c : Z) : Z :=
  Z.lor (wrap32 (Z.shiftl x c)) (Z.shiftr x (32 - c)).

(** T[i] = floor(2^32 * abs(sin(i + 1))). *)
Definition T : list Z :=
  [ 0xd76aa478; 0xe8c7b756; 0x242070db; 0xc1bdceee;
    0xf57c0faf; 0x4787c62a; 0xa8304613; 0xfd469501;
    0x698098d8; 0x8b44f7af; 0xffff5bb1; 0x895cd7be;
    0x6b901122; 0xfd987193; 0xa679438e; 0x49b40821;
    0xf61e2562; 0xc040b340; 0x265e5a51; 0xe9b6c7aa;
    0xd62f105d; 0x02441453; 0xd8a1e681; 0xe7d3fbc8;
    0x21e1cde6; 0xc33707d6; 0xf4d50d87; 0x455a14ed;
    0xa9e3e905; 0xfcefa3f8; 0x676f02d9; 0x8d2a4c8a;
    0xfffa3942; 0x8771f681; 0x6d9d6122; 0xfde5380c;
    0xa4beea44; 0x4bdecfa9; 0xf6bb4b60; 0xbebfbc70;
    0x289b7ec6; 0xeaa127fa; 0xd4ef3085; 0x04881d05;
    0xd9d4d039; 0xe6db99e5; 0x1fa27cf8; 0xc4ac5665;
    0xf4292244; 0x432aff97; 0xab9423a7; 0xfc93a039;
    0x655b59c3; 0x8f0ccc92; 0xffeff47d; 0x85845dd1;
    0x6fa87e4f; 0xfe2ce6e0; 0xa3014314; 0x4e0811a1;
    0xf7537e82; 0xbd3af235; 0x2ad7d2bb; 0xeb86d391 ].

(** Per-round left rotations. *)
Definition S : list Z :=
  [ 7; 12; 17; 22; 7; 12; 17; 22; 7; 12; 17; 22; 7; 12; 17; 22;
    5; 9; 14; 20; 5; 9; 14; 20; 5; 9; 14; 20; 5; 9; 14; 20;
    4; 11; 16; 23; 4; 11; 16; 23; 4; 11; 16; 23; 4; 11; 16; 23;
    6; 10; 15; 21; 6; 10; 15; 21; 6; 10; 15; 21; 6; 10; 15; 21 ].

Record state : Type := State { sa : Z; sb : Z; sc : Z; sd : Z }.

Definition init : state :=
  State 0x67452301 0xefcdab89 0x98badcfe 0x10325476.

(** The auxiliary function of round [i] and the index of the message word
    it reads. *)
Definition aux (i b c d : Z) : Z :=
  if i <? 16 then Z.lor (Z.land b c) (Z.land (not32 b) d)
  else if i <? 32 then Z.lor (Z.land d b) (Z.land (not32 d) c)
  else if i <? 48 then Z.lxor (Z.lxor b c) d
  else Z.lxor c (Z.lor b (not32 d)).

Definition word_index (i : Z) : Z :=
  if i <? 16 then i
  else if i <? 32 then (5 * i + 1) mod 16
  else if i <? 48 then (3 * i + 5) mod 16
  else (7 * i) mod 16.

Definition round (m : list Z) (st : state) (i : nat) : state :=
  let z := Z.of_nat i in
  let f := aux z (sb st) (sc st) (sd st) in
  let x := nth (Z.to_nat (word_index z)) m 0 in
  let sum := add32 (add32 (add32 (sa st) f) (nth i T 0)) x in
  State (sd st) (add32 (sb st) (rotl32 sum (nth i S 0))) (sb st) (sc st).

Definition block (st : state) (m : list Z) : state :=
  let r := fold_left (round m) (seq 0 64) st in
  State (add32 (sa st) (sa r)) (add32 (sb st) (sb r))
        (add32 (sc st) (sc r)) (add32 (sd st) (sd r)).

(** Little-endian bytes of a word, and words of a byte list. *)
Fixpoint le_bytes (n : nat) (x : Z) : list Z :=
  match n with
  | O => []
  | Datatypes.S n' => x mod 256 :: le_bytes n' (x / 256)
  end.

Fixpoint le_words (bs : list Z) : list Z :=
  match bs with
  | b0 :: b1 :: b2 :: b3 :: rest =>
      (b0 + 256 * b1 + 65536 * b2 + 16777216 * b3) :: le_words rest
  | _ => []
  end.

(** Padding to a multiple of 64 bytes: a one bit, zeros, and the length
    in bits as 64 bits. *)
Definition pad (msg : list Z) : list Z :=
  let len := Z.of_nat (length msg) in
  msg ++ [128] ++ repeat 0 (Z.to_nat ((55 - len) mod 64))
      ++ le_bytes 8 ((8 * len) mod 2 ^ 64).

Fixpoint blocks (n : nat) (ws : list Z) (st : state) : state :=
  match n with
  | O => st
  | Datatypes.S n' => blocks n' (skipn 16 ws) (block st (firstn 16 ws))
  end.

Definition digest (msg : list Z) : list Z :=
  let ws := le_words (pad msg) in
  let st := blocks (Nat.div (length ws) 16) ws init in
  le_bytes 4 (sa st) ++ le_bytes 4 (sb st) ++ le_bytes 4 (sc st)
    ++ le_bytes 4 (sd st).

Definition hex_digit (n : Z) : ascii :=
  if n <? 10 then chr (48 + n) else chr (87 + n).

Fixpoint hex (bs : list Z) : string :=
  match bs with
  | [] => EmptyString
  | b :: rest => String (hex_digit (b / 16)) (String (hex_digit (b mod 16)) (hex rest))
  end.

Definition hexdigest (msg : list Z) : string := hex (digest msg).

End MD5.

(** [md5(s.encode('utf-8')).hexdigest()]. *)
Definition md5_hex (s : string) : string := MD5.hexdigest (encode_utf8 s).

(** ** Werkzeug's data structures, as far as the module uses them *)

Module Werkzeug.

(** [werkzeug.security.safe_str_cmp] on two [str]: both are encoded to
    UTF-8; unequal lengths give [False]; otherwise the XOR of every pair
    of bytes is OR-ed into an accumulator that must end as zero. *)
Fixpoint xor_acc (rv : Z) (a b : list Z) : Z :=
  match a, b with
  | x :: a', y :: b' => xor_acc (Z.lor rv (Z.lxor x y)) a' b'
  | _, _ => rv
  end.

Definition safe_str_cmp (a b : string) : bool :=
  let a := encode_utf8 a in
  let b := encode_utf8 b in
  if negb (Nat.eqb (length a) (length b)) then false
  else xor_acc 0 a b =? 0.

(** [Headers]: an ordered list of (name, value). Names compare without
    regard to case in [k in h], in [h[k]] and in [h[k] = v], but [keys()]
    yields them as they were stored. *)
Definition Headers : Type := list (string * string).

Definition same_name (k k' : string) : bool :=
  String.eqb (lower k) (lower k').

Definition contains (h : Headers) (k : string) : bool :=
  existsb (fun kv => same_name (fst kv) k) h.

Fixpoint getitem (h : Headers) (k : string) : option string :=
  match h with
  | [] => None
  | (k', v) :: rest => if same_name k' k then Some v else getitem rest k
  end.

Definition keys (h : Headers) : list string := map fst h.

(** [h[k] = v]: the first header of that name is replaced where it
    stands and later ones of that name are dropped; a new name is
    appended. *)
Fixpoint setitem (h : Headers) (k v : string) : Headers :=
  match h with
  | [] => [(k, v)]
  | (k', v') :: rest =>
      if same_name k' k
      then (k, v) :: List.filter (fun kv => negb (same_name (fst kv) k)) rest
      else (k', v') :: setitem rest k v
  end.

(** [Authorization(auth_type, data)]: a dict of parameters with a type.
    Being a dict, it is falsy when it holds no parameter. *)
Record Authorization : Type := mkAuthorization {
  type : string;
  params : gmap string string
}.

Definition username (a : Authorization) : option string := params a !! "username".
Definition password (a : Authorization) : option string := params a !! "password".
Definition realm_of (a : Authorization) : option string := params a !! "realm".
Definition uri (a : Authorization) : option string := params a !! "uri".
Definition nonce (a : Authorization) : option string := params a !! "nonce".
Definition response (a : Authorization) : option string := params a !! "response".
Definition opaque (a : Authorization) : option string := params a !! "opaque".

Definition truthy (auth : option Authorization) : bool :=
  match auth with
  | None => false
  | Some a => negb (bool_decide (params a = ∅))
  end.

Record Response : Type := mkResponse {
  status_code : Z;
  headers : Headers;
  body : string
}.

(** What the module reads of Flask's [request]. *)
Record Request : Type := mkRequest {
  method : string;
  authorization : option Authorization;
  request_headers : Headers
}.

End Werkzeug.

Export Werkzeug.

(** ** The world and the monad of effects

    [session] is Flask's session; [entropy] lists what
    [str(self.random.random())] will return, draw after draw, and [draws]
    counts the draws made. [hashed] is a ghost log: the strings handed to
    md5, in call order; no code reads it. *)

Record World : Type := mkWorld {
  session : gmap string string;
  entropy : nat -> string;
  draws : nat;
  hashed : list string
}.

Definition M (A : Type) : Type := World -> py_result A * World.

Definition ret {A} (a : A) : M A := fun w => (Ret a, w).

Definition raise {A} (e : exn) : M A := fun w => (Raise e, w).

Definition bind {A B} (c : M A) (k : A -> M B) : M B :=
  fun w =>
    match c w with
    | (Ret a, w') => k a w'
    | (Raise e, w') => (Raise e, w')
    end.

Notation "'let*' x ':=' c 'in' k" := (bind c (fun x => k))
  (at level 10, x name, c at level 100, k at level 200).

Definition lift {A} (r : py_result A) : M A := fun w => (r, w).

(** The same for code that has no effect but may raise. *)
Definition pbind {A B} (r : py_result A) (k : A -> py_result B) : py_result B :=
  match r with
  | Ret a => k a
  | Raise e => Raise e
  end.

Notation "'let+' x ':=' c 'in' k" := (pbind c (fun x => k))
  (at level 10, x name, c at level 100, k at level 200).

Definition catch {A} (r : py_result A) (e : exn) (h : py_result A) : py_result A :=
  match r with
  | Raise e' => if bool_decide (e' = e) then h else r
  | _ => r
  end.

(** [h[k]] on headers. *)
Definition getitem_exn (h : Headers) (k : string) : py_result string :=
  match getitem h k with
  | Some v => Ret v
  | None => Raise KeyError
  end.

(** [x.lower()] where [x] may be [None]. *)
Definition lower_attr (x : option string) : py_result string :=
  match x with
  | Some s => Ret (lower s)
  | None => Raise AttributeError
  end.

(** [try: c except e: h]. *)
Definition try_except {A} (c : M A) (e : exn) (h : M A) : M A :=
  fun w =>
    match c w with
    | (Raise e', w') => if bool_decide (e' = e) then h w' else (Raise e', w')
    | r => r
    end.

(** [md5(s.encode('utf-8')).hexdigest()], logged. *)
Definition md5 (s : string) : M string :=
  fun w =>
    (Ret (md5_hex s),
     mkWorld (session w) (entropy w) (draws w) (hashed w ++ [s])).

(** [str(self.random.random())]. *)
Definition random_str : M string :=
  fun w =>
    (Ret (entropy w (draws w)),
     mkWorld (session w) (entropy w) (Datatypes.S (draws w)) (hashed w)).

Definition session_get (k : string) : M (option string) :=
  fun w => (Ret (session w !! k), w).

Definition session_set (k v : string) : M unit :=
  fun w =>
    (Ret tt, mkWorld (<[k := v]> (session w)) (entropy w) (draws w) (hashed w)).

(** ** Authenticator objects

    One record holds the attributes of an instance of any of the classes;
    [cls] is the scheme class whose [authenticate] and
    [authenticate_header] the instance has, and [role_mixin] says whether
    [HTTPRoleAuthMixin] is among its bases. Attributes of another class
    are never read. *)

(** A [hash_password] callback is called with one argument and, when
    that raises [TypeError], with two: [call1] and [call2] are what the
    registered function does in either case. *)
Record HashCallback : Type := mkHashCallback {
  call1 : option string -> M (option string);
  call2 : option string -> option string -> M (option string)
}.

Inductive SchemeClass : Type :=
  | Basic
  | Digest
  | Token.

Record Authenticator : Type := mkAuthenticator {
  cls : SchemeClass;
  role_mixin : bool;
  (* HTTPAuth *)
  scheme : option string;
  realm : string;
  get_password_callback : string -> M (option string);
  (* what [make_response(f())] gives for the registered error callback *)
  error_callback : M Response;
  (* HTTPBasicAuth *)
  hash_password_callback : option HashCallback;
  verify_password_callback : option (option string -> option string -> M bool);
  (* HTTPDigestAuth *)
  use_ha1_pw : bool;
  generate_nonce_callback : M string;
  verify_nonce_callback : option string -> M bool;
  generate_opaque_callback : M string;
  verify_opaque_callback : option string -> M bool;
  (* HTTPTokenAuth *)
  verify_token_callback : option (string -> M bool);
  (* HTTPRoleAuthMixin *)
  get_auth_roles_callback : option (Authorization -> M (list string))
}.

(** The value of an attribute that was checked not to be [None]. *)
Definition str (o : option string) : string := default "" o.

(** [x or d] on strings. *)
Definition or_str (x : option string) (d : string) : string :=
  if truthy_str x then str x else d.

(** [auth.attr] of a credential that may be [None]: only read under
    [if auth]. *)
Definition attr (f : Authorization -> option string)
    (auth : option Authorization) : option string :=
  match auth with
  | Some a => f a
  | None => None
  end.

Definition dq : string := String (chr 34) EmptyString.

(** *** HTTPAuth *)

Definition default_get_password (username : string) : M (option string) :=
  ret None.

(** Flask's response for the plain string the default callback returns. *)
Definition default_auth_error : M Response :=
  ret (mkResponse 200
         [("Content-Type", "text/html; charset=utf-8"); ("Content-Length", "19")]
         "Unauthorized Access").

Definition HTTPAuth_authenticate_header (self : Authenticator) : M string :=
  ret (format_opt (scheme self) +:+ " realm=" +:+ dq +:+ realm self +:+ dq).

Definition HTTPAuth_get_auth (self : Authenticator) (request : Request)
    : py_result (option Authorization) :=
  let auth := authorization request in
  let+ auth :=
    if bool_decide (auth = None) && contains (request_headers request) "Authorization"
    then
      catch
        (let+ value := getitem_exn (request_headers request) "Authorization" in
         let+ p := unpack2 (split_None_1 value) in
         Ret (Some (mkAuthorization (fst p) {[ "token" := snd p ]})))
        ValueError (Ret auth)
    else Ret auth in
  match auth with
  | Some a =>
      let+ s := lower_attr (scheme self) in
      if negb (String.eqb (lower (type a)) s) then Ret None else Ret auth
  | None => Ret auth
  end.

Definition HTTPAuth_get_auth_password (self : Authenticator)
    (auth : option Authorization) : M (option string) :=
  if truthy auth && truthy_str (attr username auth)
  then get_password_callback self (str (attr username auth))
  else ret None.

Definition HTTPAuth_username (request : Request) : option string :=
  if negb (truthy (authorization request)) then Some ""
  else attr username (authorization request).

(** *** HTTPBasicAuth *)

Definition HTTPBasicAuth_authenticate (self : Authenticator)
    (auth : option Authorization) (stored_password : option string) : M bool :=
  let username := if truthy auth then attr username auth else Some "" in
  let client_password := if truthy auth then attr password auth else Some "" in
  match verify_password_callback self with
  | Some verify => verify username client_password
  | None =>
      if negb (truthy auth) then ret false
      else
        let* client_password :=
          match hash_password_callback self with
          | Some h =>
              try_except (call1 h client_password) TypeError
                         (call2 h username client_password)
          | None => ret client_password
          end in
        ret (match client_password, stored_password with
             | Some c, Some s => safe_str_cmp c s
             | _, _ => false
             end)
  end.

(** *** HTTPDigestAuth *)

Definition _generate_random : M string :=
  let* r := random_str in md5 r.

Definition session_getitem (k : string) : M string :=
  let* v := session_get k in
  match v with
  | Some s => ret s
  | None => raise KeyError
  end.

Definition default_generate_nonce : M string :=
  let* r := _generate_random in
  let* _ := session_set "auth_nonce" r in
  session_getitem "auth_nonce".

Definition default_verify_nonce (nonce : option string) : M bool :=
  let* session_nonce := session_get "auth_nonce" in
  match nonce, session_nonce with
  | Some n, Some sn => ret (safe_str_cmp n sn)
  | _, _ => ret false
  end.

Definition default_generate_opaque : M string :=
  let* r := _generate_random in
  let* _ := session_set "auth_opaque" r in
  session_getitem "auth_opaque".

Definition default_verify_opaque (opaque : option string) : M bool :=
  let* session_opaque := session_get "auth_opaque" in
  match opaque, session_opaque with
  | Some o, Some so => ret (safe_str_cmp o so)
  | _, _ => ret false
  end.

Definition HTTPDigestAuth_get_nonce (self : Authenticator) : M string :=
  generate_nonce_callback self.

Definition HTTPDigestAuth_get_opaque (self : Authenticator) : M string :=
  generate_opaque_callback self.

Definition HTTPDigestAuth_generate_ha1 (self : Authenticator)
    (username password : string) : M string :=
  md5 (username +:+ ":" +:+ realm self +:+ ":" +:+ password).

Definition HTTPDigestAuth_authenticate_header (self : Authenticator) : M string :=
  let* nonce := HTTPDigestAuth_get_nonce self in
  let* opaque := HTTPDigestAuth_get_opaque self in
  ret (format_opt (scheme self) +:+ " realm=" +:+ dq +:+ realm self +:+ dq
       +:+ ",nonce=" +:+ dq +:+ nonce +:+ dq
       +:+ ",opaque=" +:+ dq +:+ opaque +:+ dq).

Definition HTTPDigestAuth_authenticate (self : Authenticator) (request : Request)
    (auth : option Authorization) (stored_password_or_ha1 : option string) : M bool :=
  if negb (truthy auth) || negb (truthy_str (attr username auth))
     || negb (truthy_str (attr realm_of auth)) || negb (truthy_str (attr uri auth))
     || negb (truthy_str (attr nonce auth)) || negb (truthy_str (attr response auth))
     || negb (truthy_str stored_password_or_ha1)
  then ret false
  else
    let* nonce_ok := verify_nonce_callback self (attr nonce auth) in
    if negb nonce_ok then ret false
    else
      let* opaque_ok := verify_opaque_callback self (attr opaque auth) in
      if negb opaque_ok then ret false
      else
        let* ha1 :=
          if use_ha1_pw self then ret (str stored_password_or_ha1)
          else md5 (str (attr username auth) +:+ ":" +:+ str (attr realm_of auth)
                    +:+ ":" +:+ str stored_password_or_ha1) in
        let* ha2 := md5 (method request +:+ ":" +:+ str (attr uri auth)) in
        let* response :=
          md5 (ha1 +:+ ":" +:+ str (attr nonce auth) +:+ ":" +:+ ha2) in
        ret (safe_str_cmp response (str (attr Werkzeug.response auth))).

(** *** HTTPTokenAuth *)

Definition HTTPTokenAuth_authenticate (self : Authenticator)
    (auth : option Authorization) (stored_password : option string) : M bool :=
  let* token :=
    if truthy auth then
      match attr (fun a => params a !! "token") auth with
      | Some t => ret t
      | None => raise KeyError
      end
    else ret "" in
  match verify_token_callback self with
  | Some verify => verify token
  | None => ret false
  end.

(** *** Method resolution: the scheme class decides *)

Definition authenticate (self : Authenticator) (request : Request)
    (auth : option Authorization) (stored_password : option string) : M bool :=
  match cls self with
  | Basic => HTTPBasicAuth_authenticate self auth stored_password
  | Digest => HTTPDigestAuth_authenticate self request auth stored_password
  | Token => HTTPTokenAuth_authenticate self auth stored_password
  end.

Definition authenticate_header (self : Authenticator) : M string :=
  match cls self with
  | Digest => HTTPDigestAuth_authenticate_header self
  | _ => HTTPAuth_authenticate_header self
  end.

(** *** HTTPAuth.error_handler and login_required *)

Definition set_status_code (res : Response) (c : Z) : Response :=
  mkResponse c (headers res) (body res).

Definition set_header (res : Response) (k v : string) : Response :=
  mkResponse (status_code res) (setitem (headers res) k v) (body res).

(** [decorated] of [error_handler], for the callback whose response is
    [f]. *)
Definition error_handler_decorated (self : Authenticator) (f : M Response)
    : M Response :=
  let* res := f in
  let res := if status_code res =? 200 then set_status_code res 401 else res in
  if negb (bool_decide ("WWW-Authenticate" ∈ keys (headers res)))
  then
    let* challenge := authenticate_header self in
    ret (set_header res "WWW-Authenticate" challenge)
  else ret res.

Definition auth_error_callback (self : Authenticator) : M Response :=
  error_handler_decorated self (error_callback self).

(** [decorated] of [login_required], for the view [f]. Reading
    [request.data] before the error response only drains the request
    body and is left out. *)
Definition HTTPAuth_login_required (self : Authenticator) (f : M Response)
    (request : Request) : M Response :=
  let* auth := lift (HTTPAuth_get_auth self request) in
  if negb (String.eqb (method request) "OPTIONS")
  then
    let* password := HTTPAuth_get_auth_password self auth in
    let* ok := authenticate self request auth password in
    if negb ok then auth_error_callback self else f
  else f.

(** *** HTTPRoleAuthMixin *)

(** [role in endpoint_roles]. *)
Definition py_in (role : string) (endpoint_roles : option (list string))
    : py_result bool :=
  match endpoint_roles with
  | Some rs => Ret (bool_decide (role ∈ rs))
  | None => Raise TypeError
  end.

(** [all(p(x) for x in l)] and [any(p(x) for x in l)]: the generator is
    consumed until the answer is known. *)
Fixpoint py_all {A} (p : A -> py_result bool) (l : list A) : py_result bool :=
  match l with
  | [] => Ret true
  | x :: rest =>
      let+ b := p x in
      if b then py_all p rest else Ret false
  end.

Fixpoint py_any {A} (p : A -> py_result bool) (l : list A) : py_result bool :=
  match l with
  | [] => Ret false
  | x :: rest =>
      let+ b := p x in
      if b then Ret true else py_any p rest
  end.

Definition HTTPRoleAuthMixin_authorize (self : Authenticator)
    (auth : option Authorization) (endpoint_roles : option (list string))
    (use_all : bool) : M bool :=
  match auth with
  | Some a =>
      if negb (truthy auth) then ret false
      else
        let* auth_roles :=
          match get_auth_roles_callback self with
          | Some callback => callback a
          | None => raise TypeError
          end in
        if use_all
        then lift (py_all (fun role => py_in role endpoint_roles) auth_roles)
        else lift (py_any (fun role => py_in role endpoint_roles) auth_roles)
  | None => ret false
  end.

(** [verify] of the parameterized [login_required]. *)
Definition HTTPRoleAuthMixin_verify (self : Authenticator) (request : Request)
    (roles : option (list string)) (use_all : bool)
    (auth : option Authorization) (stored_password : option string) : M bool :=
  let* authenticated := authenticate self request auth stored_password in
  if authenticated then HTTPRoleAuthMixin_authorize self auth roles use_all
  else ret false.

(** [login_required(roles=..., use_all=...)(f)]; with [func] given the
    mixin hands over to [HTTPAuth_login_required]. *)
Definition HTTPRoleAuthMixin_login_required (self : Authenticator)
    (roles : option (list string)) (use_all : bool) (f : M Response)
    (request : Request) : M Response :=
  let* auth := lift (HTTPAuth_get_auth self request) in
  if negb (String.eqb (method request) "OPTIONS")
  then
    let* password := HTTPAuth_get_auth_password self auth in
    let* ok := HTTPRoleAuthMixin_verify self request roles use_all auth password in
    if negb ok then auth_error_callback self else f
  else f.

(** *** MultiAuth and MultiRoleAuth *)

Record MultiAuth : Type := mkMultiAuth {
  main_auth : Authenticator;
  additional_auth : list Authenticator
}.

(** The [for ... break] loop of [selected_auth]. *)
Fixpoint scan_additional (auths : list Authenticator) (scheme_token : string)
    : option Authenticator :=
  match auths with
  | [] => None
  | auth :: rest =>
      if bool_decide (scheme auth = Some scheme_token) then Some auth
      else scan_additional rest scheme_token
  end.

Definition MultiAuth_selected_auth (self : MultiAuth) (request : Request)
    : py_result Authenticator :=
  let+ selected_auth :=
    if contains (request_headers request) "Authorization"
    then
      let+ parsed :=
        catch
          (let+ value := getitem_exn (request_headers request) "Authorization" in
           let+ p := unpack2 (split_None_1 value) in
           Ret (Some p))
          ValueError (Ret None) in
      match parsed with
      | Some p => Ret (scan_additional (additional_auth self) (fst p))
      | None => Ret None
      end
    else Ret None in
  match selected_auth with
  | None => Ret (main_auth self)
  | Some a => Ret a
  end.

Definition MultiAuth_login_required (self : MultiAuth) (f : M Response)
    (request : Request) : M Response :=
  let* selected := lift (MultiAuth_selected_auth self request) in
  HTTPAuth_login_required selected f request.

(** [isinstance(auth, HTTPRoleAuthMixin)]. *)
Definition isinstance_HTTPRoleAuthMixin (auth : Authenticator) : bool :=
  role_mixin auth.

Fixpoint check_role_capable (auths : list Authenticator) : py_result unit :=
  match auths with
  | [] => Ret tt
  | auth :: rest =>
      if negb (isinstance_HTTPRoleAuthMixin auth) then Raise TypeError
      else check_role_capable rest
  end.

Definition MultiRoleAuth_init (main_auth : Authenticator)
    (args : list Authenticator) : py_result MultiAuth :=
  let+ _ := check_role_capable (main_auth :: args) in
  Ret (mkMultiAuth main_auth args).

(** [auth.login_required(roles=roles, use_all=use_all)(f)]: only the
    mixin's [login_required] takes these keywords. *)
Definition login_required_with_roles (auth : Authenticator)
    (roles : option (list string)) (use_all : bool) (f : M Response)
    (request : Request) : M Response :=
  if isinstance_HTTPRoleAuthMixin auth
  then HTTPRoleAuthMixin_login_required auth roles use_all f request
  else raise TypeError.

Definition MultiRoleAuth_login_required (self : MultiAuth)
    (roles : option (list string)) (use_all : bool) (f : M Response)
    (request : Request) : M Response :=
  let* selected := lift (MultiAuth_selected_auth self request) in
  login_required_with_roles selected roles use_all f request.

(** *** Constructors and the registering decorators *)

Definition HTTPAuth_init (c : SchemeClass) (scheme realm : option string)
    : Authenticator :=
  {| cls := c;
     role_mixin := false;
     scheme := scheme;
     realm := or_str realm "Authentication Required";
     get_password_callback := default_get_password;
     error_callback := default_auth_error;
     hash_password_callback := None;
     verify_password_callback := None;
     use_ha1_pw := false;
     generate_nonce_callback := default_generate_nonce;
     verify_nonce_callback := default_verify_nonce;
     generate_opaque_callback := default_generate_opaque;
     verify_opaque_callback := default_verify_opaque;
     verify_token_callback := None;
     get_auth_roles_callback := None |}.

Definition HTTPBasicAuth (scheme realm : option string) : Authenticator :=
  HTTPAuth_init Basic (Some (or_str scheme "Basic")) realm.

Definition with_use_ha1_pw (self : Authenticator) (b : bool) : Authenticator :=
  mkAuthenticator (cls self) (role_mixin self) (scheme self) (realm self)
    (get_password_callback self) (error_callback self)
    (hash_password_callback self) (verify_password_callback self)
    b (generate_nonce_callback self) (verify_nonce_callback self)
    (generate_opaque_callback self) (verify_opaque_callback self)
    (verify_token_callback self) (get_auth_roles_callback self).

(** The constructor's probing call of [self.random.random()] happens
    before any request: [entropy] lists the draws after it. *)
Definition HTTPDigestAuth (scheme realm : option string) (use_ha1_pw : bool)
    : Authenticator :=
  with_use_ha1_pw (HTTPAuth_init Digest (Some (or_str scheme "Digest")) realm)
                  use_ha1_pw.

(** [scheme] defaults to ['Bearer'] when the caller leaves it out; a
    caller who passes [None] gets [None]. *)
Definition HTTPTokenAuth (scheme realm : option string) : Authenticator :=
  HTTPAuth_init Token scheme realm.

Definition with_role_mixin (self : Authenticator) : Authenticator :=
  mkAuthenticator (cls self) true (scheme self) (realm self)
    (get_password_callback self) (error_callback self)
    (hash_password_callback self) (verify_password_callback self)
    (use_ha1_pw self) (generate_nonce_callback self) (verify_nonce_callback self)
    (generate_opaque_callback self) (verify_opaque_callback self)
    (verify_token_callback self) None.

Definition HTTPBasicRoleAuth (scheme realm : option string) : Authenticator :=
  with_role_mixin (HTTPBasicAuth scheme realm).

Definition HTTPTokenRoleAuth (scheme realm : option string) : Authenticator :=
  with_role_mixin (HTTPTokenAuth scheme realm).

Definition HTTPDigestRoleAuth (scheme realm : option string) (use_ha1_pw : bool)
    : Authenticator :=
  with_role_mixin (HTTPDigestAuth scheme realm use_ha1_pw).

Definition get_password (self : Authenticator)
    (f : string -> M (option string)) : Authenticator :=
  mkAuthenticator (cls self) (role_mixin self) (scheme self) (realm self)
    f (error_callback self)
    (hash_password_callback self) (verify_password_callback self)
    (use_ha1_pw self) (generate_nonce_callback self) (verify_nonce_callback self)
    (generate_opaque_callback self) (verify_opaque_callback self)
    (verify_token_callback self) (get_auth_roles_callback self).

Definition error_handler (self : Authenticator) (f : M Response) : Authenticator :=
  mkAuthenticator (cls self) (role_mixin self) (scheme self) (realm self)
    (get_password_callback self) f
    (hash_password_callback self) (verify_password_callback self)
    (use_ha1_pw self) (generate_nonce_callback self) (verify_nonce_callback self)
    (generate_opaque_callback self) (verify_opaque_callback self)
    (verify_token_callback self) (get_auth_roles_callback self).

Definition hash_password (self : Authenticator) (f : HashCallback) : Authenticator :=
  mkAuthenticator (cls self) (role_mixin self) (scheme self) (realm self)
    (get_password_callback self) (error_callback self)
    (Some f) (verify_password_callback self)
    (use_ha1_pw self) (generate_nonce_callback self) (verify_nonce_callback self)
    (generate_opaque_callback self) (verify_opaque_callback self)
    (verify_token_callback self) (get_auth_roles_callback self).

Definition verify_password (self : Authenticator)
    (f : option string -> option string -> M bool) : Authenticator :=
  mkAuthenticator (cls self) (role_mixin self) (scheme self) (realm self)
    (get_password_callback self) (error_callback self)
    (hash_password_callback self) (Some f)
    (use_ha1_pw self) (generate_nonce_callback self) (verify_nonce_callback self)
    (generate_opaque_callback self) (verify_opaque_callback self)
    (verify_token_callback self) (get_auth_roles_callback self).

Definition generate_nonce (self : Authenticator) (f : M string) : Authenticator :=
  mkAuthenticator (cls self) (role_mixin self) (scheme self) (realm self)
    (get_password_callback self) (error_callback self)
    (hash_password_callback self) (verify_password_callback self)
    (use_ha1_pw self) f (verify_nonce_callback self)
    (generate_opaque_callback self) (verify_opaque_callback self)
    (verify_token_callback self) (get_auth_roles_callback self).

Definition verify_nonce (self : Authenticator) (f : option string -> M bool)
    : Authenticator :=
  mkAuthenticator (cls self) (role_mixin self) (scheme self) (realm self)
    (get_password_callback self) (error_callback self)
    (hash_password_callback self) (verify_password_callback self)
    (use_ha1_pw self) (generate_nonce_callback self) f
    (generate_opaque_callback self) (verify_opaque_callback self)
    (verify_token_callback self) (get_auth_roles_callback self).

Definition generate_opaque (self : Authenticator) (f : M string) : Authenticator :=
  mkAuthenticator (cls self) (role_mixin self) (scheme self) (realm self)
    (get_password_callback self) (error_callback self)
    (hash_password_callback self) (verify_password_callback self)
    (use_ha1_pw self) (generate_nonce_callback self) (verify_nonce_callback self)
    f (verify_opaque_callback self)
    (verify_token_callback self) (get_auth_roles_callback self).

Definition verify_opaque (self : Authenticator) (f : option string -> M bool)
    : Authenticator :=
  mkAuthenticator (cls self) (role_mixin self) (scheme self) (realm self)
    (get_password_callback self) (error_callback self)
    (hash_password_callback self) (verify_password_callback self)
    (use_ha1_pw self) (generate_nonce_callback self) (verify_nonce_callback self)
    (generate_opaque_callback self) f
    (verify_token_callback self) (get_auth_roles_callback self).

Definition verify_token (self : Authenticator) (f : string -> M bool)
    : Authenticator :=
  mkAuthenticator (cls self) (role_mixin self) (scheme self) (realm self)
    (get_password_callback self) (error_callback self)
    (hash_password_callback self) (verify_password_callback self)
    (use_ha1_pw self) (generate_nonce_callback self) (verify_nonce_callback self)
    (generate_opaque_callback self) (verify_opaque_callback self)
    (Some f) (get_auth_roles_callback self).

Definition get_auth_roles (self : Authenticator)
    (f : Authorization -> M (list string)) : Authenticator :=
  mkAuthenticator (cls self) (role_mixin self) (scheme self) (realm self)
    (get_password_callback self) (error_callback self)
    (hash_password_callback self) (verify_password_callback self)
    (use_ha1_pw self) (generate_nonce_callback self) (verify_nonce_callback self)
    (generate_opaque_callback self) (verify_opaque_callback self)
    (verify_token_callback self) (Some f).

(** ** The claims' words as definitions *)

(** At least one required role is among the identity's roles. *)
Definition any_required_present (required identity : list string) : bool :=
  existsb (fun r => bool_decide (r ∈ identity)) required.

(** Every required role is among the identity's roles. *)
Definition all_required_present (required identity : list string) : bool :=
  forallb (fun r => bool_decide (r ∈ identity)) required.

(** A value that is there and not empty; one that is [None] or empty. *)
Definition present (o : option string) (s : string) : Prop :=
  o = Some s /\ s <> "".

Definition absent (o : option string) : Prop :=
  o = None \/ o = Some "".

(** The digest chain of section 4.3: HA1, HA2 and the expected response. *)
Definition HA1 (password_is_ha1 : bool) (username realm password : string) : string :=
  if password_is_ha1 then password
  else md5_hex (username +:+ ":" +:+ realm +:+ ":" +:+ password).

Definition HA2 (request_method request_uri : string) : string :=
  md5_hex (request_method +:+ ":" +:+ request_uri).

Definition expected_response (password_is_ha1 : bool)
    (username realm password request_method request_uri nonce : string) : string :=
  md5_hex (HA1 password_is_ha1 username realm password +:+ ":" +:+ nonce
           +:+ ":" +:+ HA2 request_method request_uri).

(** The strings the chain hashes, in order. *)
Definition chain_inputs (password_is_ha1 : bool)
    (username realm password request_method request_uri nonce : string)
    : list string :=
  (if password_is_ha1 then []
   else [username +:+ ":" +:+ realm +:+ ":" +:+ password])
  ++ [request_method +:+ ":" +:+ request_uri;
      HA1 password_is_ha1 username realm password +:+ ":" +:+ nonce
        +:+ ":" +:+ HA2 request_method request_uri].

(** The world [w] after md5 was called on [inputs]. *)
Definition after_md5 (w : World) (inputs : list string) : World :=
  mkWorld (session w) (entropy w) (draws w) (hashed w ++ inputs).

(** A Digest credential and secret with nothing missing. *)
Definition complete (a : Authorization) (stored : option string) : Prop :=
  (exists u, present (username a) u) /\ (exists r, present (realm_of a) r)
  /\ (exists x, present (uri a) x) /\ (exists n, present (nonce a) n)
  /\ (exists r, present (response a) r) /\ (exists p, present stored p).

(** The first check of Digest verification that fails, and the world it
    leaves: a missing credential, field or secret leaves the world as it
    was; a rejecting verifier leaves the world it produced. *)
Inductive digest_check_fails (self : Authenticator)
    (auth : option Authorization) (stored : option string) (w : World)
    : World -> Prop :=
  | credential_absent :
      auth = None -> digest_check_fails self auth stored w w
  | field_absent (a : Authorization) :
      auth = Some a ->
      absent (username a) \/ absent (realm_of a) \/ absent (uri a)
      \/ absent (nonce a) \/ absent (response a) ->
      digest_check_fails self auth stored w w
  | secret_absent :
      absent stored -> digest_check_fails self auth stored w w
  | nonce_rejected (a : Authorization) (w1 : World) :
      auth = Some a -> complete a stored ->
      verify_nonce_callback self (nonce a) w = (Ret false, w1) ->
      digest_check_fails self auth stored w w1
  | opaque_rejected (a : Authorization) (w1 w2 : World) :
      auth = Some a -> complete a stored ->
      verify_nonce_callback self (nonce a) w = (Ret true, w1) ->
      verify_opaque_callback self (opaque a) w1 = (Ret false, w2) ->
      digest_check_fails self auth stored w w2.

(** Plain Basic comparison: both secrets are there and equal. *)
Definition secrets_agree (client stored : option string) : bool :=
  match client, stored with
  | Some c, Some s => bool_decide (c = s)
  | _, _ => false
  end.

(** [s] with its character at position [i] replaced by [c]. *)
Fixpoint mutate (s : string) (i : nat) (c : ascii) : string :=
  match s, i with
  | EmptyString, _ => EmptyString
  | String _ s', O => String c s'
  | String x s', Datatypes.S i' => String x (mutate s' i' c)
  end.

(** A header value with no token after the scheme. *)
Definition malformed (value : string) : Prop :=
  forall t r, split_None_1 value <> [t; r].

(** The credentials a request carries before any scheme is compared:
    the framework's, or else the header cut into scheme and token. *)
Definition carried (request : Request) : option Authorization :=
  match authorization request with
  | Some a => Some a
  | None =>
      match getitem (request_headers request) "Authorization" with
      | Some value =>
          match split_None_1 value with
          | [t; r] => Some (mkAuthorization t {[ "token" := r ]})
          | _ => None
          end
      | None => None
      end
  end.

(** The scheme token of the Authorization header, when the header is
    there and has a second token. *)
Definition scheme_token (request : Request) : option string :=
  match getitem (request_headers request) "Authorization" with
  | Some value =>
      match split_None_1 value with
      | [t; _] => Some t
      | _ => None
      end
  | None => None
  end.

(** [a] is the first authenticator of [additional], in registration
    order, whose scheme is exactly [tok]. *)
Definition first_with_scheme (additional : list Authenticator) (tok : string)
    (a : Authenticator) : Prop :=
  exists i : nat,
    additional !! i = Some a /\ scheme a = Some tok
    /\ forall (j : nat) (b : Authenticator),
         additional !! j = Some b -> (j < i)%nat -> scheme b <> Some tok.

(** The status the responder settles on. *)
Definition final_status (callback_status : Z) : Z :=
  if callback_status =? 200 then 401 else callback_status.

(** A verifier that hashes nothing. *)
Definition quiet (verify : option string -> M bool) : Prop :=
  forall x w r w', verify x w = (r, w') -> hashed w' = hashed w.

(** ** Fixtures for the worked examples *)

Definition draw (n : nat) : string :=
  match n with
  | O => "0.5"
  | Datatypes.S O => "0.25"
  | _ => "0.125"
  end.

Definition w0 : World := mkWorld ∅ draw 0 [].

Definition cred_basic (u p : string) : Authorization :=
  mkAuthorization "basic" (<["username" := u]> {["password" := p]}).

Definition cred_token (t : string) : Authorization :=
  mkAuthorization "Bearer" {["token" := t]}.

(** A user table with one user. *)
Definition users (u : string) : M (option string) :=
  ret (if String.eqb u "alice" then Some "secret" else None).

Definition basic_auth : Authenticator :=
  get_password (HTTPBasicAuth None None) users.

Definition token_auth : Authenticator :=
  verify_token (HTTPTokenAuth (Some "Bearer") None)
               (fun t => ret (String.eqb t "xyz")).

Definition digest_auth : Authenticator :=
  get_password (HTTPDigestAuth None None false) users.

(** A Basic authenticator with roles, whose every identity has the roles
    [rs]. *)
Definition roles_auth (rs : list string) : Authenticator :=
  get_auth_roles (get_password (HTTPBasicRoleAuth None None) users)
                 (fun _ => ret rs).

Definition token_roles_auth : Authenticator :=
  get_auth_roles (verify_token (HTTPTokenRoleAuth (Some "Bearer") None)
                               (fun t => ret (String.eqb t "xyz")))
                 (fun _ => ret ["admin"]).

(** The world after the Digest authenticator issued its challenge. *)
Definition challenged : World := snd (authenticate_header digest_auth w0).

Definition nonce0 : string := "d310cb367d993fb6fb584b198a2fd72c".
Definition opaque0 : string := "70da82175ec8a195a3d8b0fa8f69681d".

Definition cred_digest (u n o rs : string) : Authorization :=
  mkAuthorization "digest"
    (list_to_map [("username", u); ("realm", "Authentication Required");
                  ("uri", "/protected"); ("nonce", n); ("opaque", o);
                  ("response", rs)]).

(** alice's answer to the challenge, as hashlib computes it. *)
Definition good_digest : Authorization :=
  cred_digest "alice" nonce0 opaque0 "d81f1b47f2571e62a9edefc86a30c1fd".

Definition get_protected (auth : option Authorization) (h : Headers) : Request :=
  mkRequest "GET" auth h.

Definition ok_view : M Response := ret (mkResponse 200 [] "hello").

(** A Digest authenticator that stores HA1 instead of the password. *)
Definition ha1_auth : Authenticator :=
  get_password (HTTPDigestAuth None None true)
    (fun u => ret (if String.eqb u "alice"
                   then Some "e1942f91cd2f94fc4115fd22fa9ca22d" else None)).

Definition bearer_request (token : string) : Request :=
  get_protected None [("Authorization", "Bearer " +:+ token)].

(** The Digest challenge for a nonce and an opaque. *)
Definition digest_challenge_string (self : Authenticator) (n o : string) : string :=
  format_opt (scheme self) +:+ " realm=" +:+ dq +:+ realm self +:+ dq
  +:+ ",nonce=" +:+ dq +:+ n +:+ dq +:+ ",opaque=" +:+ dq +:+ o +:+ dq.

(** The world after a challenge with the default generators: two draws
    were made and hashed, and the session holds the nonce and the
    opaque. *)
Definition after_challenge (w : World) : World :=
  mkWorld
    (<["auth_opaque" := md5_hex (entropy w (Datatypes.S (draws w)))]>
       (<["auth_nonce" := md5_hex (entropy w (draws w))]> (session w)))
    (entropy w) (Datatypes.S (Datatypes.S (draws w)))
    (hashed w ++ [entropy w (draws w); entropy w (Datatypes.S (draws w))]).

(** ** Strings and comparison *)

Lemma utf8_char_roundtrip (c : ascii) (s : string) :
  decode_utf8 (encode_utf8 (String c s)) = String c (decode_utf8 (encode_utf8 s)).
Proof.
  destruct c as [[] [] [] [] [] [] [] []]; reflexivity.
Qed.

Lemma utf8_roundtrip (s : string) : decode_utf8 (encode_utf8 s) = s.
Proof.
  induction s as [|c s IH]; [reflexivity|].
  rewrite utf8_char_roundtrip, IH. reflexivity.
Qed.

Lemma encode_utf8_inj (a b : string) : encode_utf8 a = encode_utf8 b -> a = b.
Proof.
  intros H. rewrite <- (utf8_roundtrip a), <- (utf8_roundtrip b), H. reflexivity.
Qed.

Lemma xor_acc_zero (a : list Z) :
  forall (b : list Z) (rv : Z),
    length a = length b ->
    (xor_acc rv a b = 0 <-> rv = 0 /\ a = b).
Proof.
  induction a as [|x a IH]; intros [|y b] rv Hlen; simpl in *; try discriminate.
  - split; [intros ->; auto | intros [-> _]; reflexivity].
  - rewrite IH by congruence. rewrite Z.lor_eq_0_iff. split.
    + intros [[-> Hxy] ->]. apply Z.lxor_eq in Hxy. subst. auto.
    + intros [-> Heq]. inversion Heq; subst.
      rewrite Z.lxor_nilpotent. auto.
Qed.

Lemma safe_str_cmp_true (a b : string) : safe_str_cmp a b = true <-> a = b.
Proof.
  unfold safe_str_cmp.
  destruct (Nat.eqb (length (encode_utf8 a)) (length (encode_utf8 b))) eqn:Hlen; simpl.
  - apply Nat.eqb_eq in Hlen. rewrite Z.eqb_eq, xor_acc_zero by exact Hlen.
    split; [intros [_ H]; apply encode_utf8_inj, H | intros ->; auto].
  - split; [discriminate|]. intros ->. rewrite Nat.eqb_refl in Hlen. discriminate.
Qed.

Lemma safe_str_cmp_refl (a : string) : safe_str_cmp a a = true.
Proof. apply safe_str_cmp_true. reflexivity. Qed.

Lemma safe_str_cmp_false (a b : string) : safe_str_cmp a b = false <-> a <> b.
Proof.
  rewrite <- safe_str_cmp_true. destruct (safe_str_cmp a b); split; congruence.
Qed.

(** ** Sanity of the modelled builtins *)

Lemma lower_char_idempotent (c : ascii) : lower_char (lower_char c) = lower_char c.
Proof. destruct c as [[] [] [] [] [] [] [] []]; reflexivity. Qed.

Lemma lower_idempotent (s : string) : lower (lower s) = lower s.
Proof.
  induction s as [|c s IH]; simpl; [reflexivity|].
  rewrite lower_char_idempotent, IH. reflexivity.
Qed.

Lemma split_None_1_at_most_two (s : string) : (length (split_None_1 s) <= 2)%nat.
Proof.
  unfold split_None_1. destruct (lstrip s) as [|c s1]; [simpl; lia|].
  destruct (span_word (String c s1)) as [word r].
  destruct (lstrip r); simpl; lia.
Qed.

Lemma le_bytes_length (n : nat) : forall x, length (MD5.le_bytes n x) = n.
Proof. induction n as [|n IH]; intros x; simpl; [reflexivity | rewrite IH; reflexivity]. Qed.

Lemma hex_length (bs : list Z) :
  String.length (MD5.hex bs) = (2 * length bs)%nat.
Proof. induction bs as [|b bs IH]; simpl; [reflexivity | rewrite IH; lia]. Qed.

(** The digest has 128 bits, rendered as 32 hexadecimal digits. *)
Lemma md5_hex_length (s : string) : String.length (md5_hex s) = 32%nat.
Proof.
  unfold md5_hex, MD5.hexdigest, MD5.digest.
  rewrite hex_length, !length_app, !le_bytes_length. reflexivity.
Qed.

(** The padded message is a whole number of 64-byte blocks. *)
Lemma pad_length (msg : list Z) : Z.of_nat (length (MD5.pad msg)) mod 64 = 0.
Proof.
  unfold MD5.pad. rewrite !length_app, repeat_length, le_bytes_length.
  cbn [length].
  set (len := Z.of_nat (length msg)).
  assert (Hk : 0 <= (55 - len) mod 64 < 64) by (apply Z.mod_pos_bound; lia).
  replace (Z.of_nat (length msg + (1 + (Z.to_nat ((55 - len) mod 64) + 8))))
    with (len + 9 + (55 - len) mod 64) by (subst len; lia).
  pose proof (Z.div_mod (55 - len) 64 ltac:(lia)) as Hd.
  replace (len + 9 + (55 - len) mod 64) with ((1 - (55 - len) / 64) * 64) by lia.
  apply Z.mod_mul. lia.
Qed.

(** ** Role authorization *)

Section Roles.

Variable self : Authenticator.
Variable callback : Authorization -> M (list string).
Hypothesis registered : get_auth_roles_callback self = Some callback.

Lemma py_any_collection (required identity : list string) :
  py_any (fun role => py_in role (Some required)) identity
  = Ret (existsb (fun role => bool_decide (role ∈ required)) identity).
Proof.
  induction identity as [|r rest IH]; simpl; [reflexivity|].
  destruct (bool_decide (r ∈ required)); simpl; [reflexivity | exact IH].
Qed.

Lemma py_all_collection (required identity : list string) :
  py_all (fun role => py_in role (Some required)) identity
  = Ret (forallb (fun role => bool_decide (role ∈ required)) identity).
Proof.
  induction identity as [|r rest IH]; simpl; [reflexivity|].
  destruct (bool_decide (r ∈ required)); simpl; [exact IH | reflexivity].
Qed.

Lemma any_required_present_iff (required identity : list string) :
  any_required_present required identity = true
  <-> exists r, r ∈ required /\ r ∈ identity.
Proof.
  unfold any_required_present. rewrite existsb_exists. split.
  - intros (r & Hin & Hb). exists r. split.
    + apply list_elem_of_In, Hin.
    + apply bool_decide_eq_true in Hb. exact Hb.
  - intros (r & Hreq & Hid). exists r. split.
    + apply list_elem_of_In, Hreq.
    + apply bool_decide_eq_true. exact Hid.
Qed.

(** The loop runs over the identity's roles and tests each against the
    required ones; a common role is found either way round. *)
Lemma any_symmetric (required identity : list string) :
  existsb (fun role => bool_decide (role ∈ required)) identity
  = any_required_present required identity.
Proof.
  apply eq_true_iff_eq.
  rewrite any_required_present_iff, existsb_exists. split.
  - intros (r & Hin & Hb). exists r. split.
    + apply bool_decide_eq_true in Hb. exact Hb.
    + apply list_elem_of_In, Hin.
  - intros (r & Hreq & Hid). exists r. split.
    + apply list_elem_of_In, Hid.
    + apply bool_decide_eq_true. exact Hreq.
Qed.

Lemma authorize_unfold (a : Authorization) (endpoint_roles : option (list string))
    (use_all : bool) (identity : list string) (w w' : World) :
  truthy (Some a) = true ->
  callback a w = (Ret identity, w') ->
  HTTPRoleAuthMixin_authorize self (Some a) endpoint_roles use_all w
  = ((if use_all
      then py_all (fun role => py_in role endpoint_roles) identity
      else py_any (fun role => py_in role endpoint_roles) identity), w').
Proof.
  intros Ht Hcb. unfold HTTPRoleAuthMixin_authorize.
  rewrite Ht, registered. simpl. unfold bind. rewrite Hcb.
  destruct use_all; reflexivity.
Qed.

(** C2. In ANY mode [authorize] answers whether at least one required
    role is among the roles the callback resolves for the credential. *)
Theorem authorize_any_mode (a : Authorization) (required identity : list string)
    (w w' : World) :
  truthy (Some a) = true ->
  callback a w = (Ret identity, w') ->
  HTTPRoleAuthMixin_authorize self (Some a) (Some required) false w
  = (Ret (any_required_present required identity), w')
  /\ (any_required_present required identity = true
      <-> exists r, r ∈ required /\ r ∈ identity).
Proof.
  intros Ht Hcb. split; [|apply any_required_present_iff].
  rewrite (authorize_unfold a (Some required) false identity w w' Ht Hcb).
  rewrite py_any_collection, any_symmetric. reflexivity.
Qed.

(** What ALL mode computes: every role of the identity is among the
    required ones. *)
Lemma authorize_all_mode_computes (a : Authorization)
    (required identity : list string) (w w' : World) :
  truthy (Some a) = true ->
  callback a w = (Ret identity, w') ->
  HTTPRoleAuthMixin_authorize self (Some a) (Some required) true w
  = (Ret (forallb (fun role => bool_decide (role ∈ required)) identity), w').
Proof.
  intros Ht Hcb.
  rewrite (authorize_unfold a (Some required) true identity w w' Ht Hcb).
  rewrite py_all_collection. reflexivity.
Qed.

Lemma py_any_None (identity : list string) :
  py_any (fun role => py_in role None) identity
  = match identity with [] => Ret false | _ :: _ => Raise TypeError end.
Proof. destruct identity; reflexivity. Qed.

Lemma py_all_None (identity : list string) :
  py_all (fun role => py_in role None) identity
  = match identity with [] => Ret true | _ :: _ => Raise TypeError end.
Proof. destruct identity; reflexivity. Qed.

Lemma authorize_roles_None (a : Authorization) (use_all : bool)
    (identity : list string) (w w' : World) :
  truthy (Some a) = true ->
  callback a w = (Ret identity, w') ->
  HTTPRoleAuthMixin_authorize self (Some a) None use_all w
  = (match identity with [] => Ret use_all | _ :: _ => Raise TypeError end, w').
Proof.
  intros Ht Hcb.
  rewrite (authorize_unfold a None use_all identity w w' Ht Hcb).
  destruct use_all; [rewrite py_all_None | rewrite py_any_None];
    destruct identity; reflexivity.
Qed.

(** C10. With [roles] left at [None], a credential that authenticates
    and resolves to a non-empty role set makes [authorize], and with it
    [verify], raise [TypeError]; an empty role set gives [False] in ANY
    mode and [True] in ALL mode. *)
Theorem authorize_without_roles (request : Request) (a : Authorization)
    (stored_password : option string) (use_all : bool)
    (identity : list string) (w w1 w2 : World) :
  truthy (Some a) = true ->
  authenticate self request (Some a) stored_password w = (Ret true, w1) ->
  callback a w1 = (Ret identity, w2) ->
  let outcome :=
    match identity with
    | [] => Ret use_all
    | _ :: _ => Raise TypeError
    end in
  HTTPRoleAuthMixin_authorize self (Some a) None use_all w1 = (outcome, w2)
  /\ HTTPRoleAuthMixin_verify self request None use_all (Some a) stored_password w
     = (outcome, w2).
Proof.
  intros Ht Hauth Hcb outcome.
  pose proof (authorize_roles_None a use_all identity w1 w2 Ht Hcb) as Hz.
  split; [exact Hz|].
  unfold HTTPRoleAuthMixin_verify, bind. rewrite Hauth. exact Hz.
Qed.

End Roles.

(** ** Digest authentication *)

Lemma present_truthy (o : option string) (s : string) :
  present o s -> truthy_str o = true /\ str o = s.
Proof.
  intros [-> Hne]. split; [|reflexivity].
  destruct s; [congruence | reflexivity].
Qed.

Lemma absent_falsy (o : option string) : absent o -> truthy_str o = false.
Proof. intros [-> | ->]; reflexivity. Qed.

Lemma field_truthy (a : Authorization) (k s : string) :
  params a !! k = Some s -> truthy (Some a) = true.
Proof.
  intros H. simpl. apply negb_true_iff, bool_decide_eq_false.
  intros He. rewrite He, lookup_empty in H. discriminate.
Qed.

Lemma complete_passes (a : Authorization) (stored : option string) :
  complete a stored ->
  negb (truthy (Some a)) || negb (truthy_str (attr username (Some a)))
  || negb (truthy_str (attr realm_of (Some a)))
  || negb (truthy_str (attr uri (Some a)))
  || negb (truthy_str (attr nonce (Some a)))
  || negb (truthy_str (attr response (Some a)))
  || negb (truthy_str stored) = false.
Proof.
  intros ((u & Hu) & (r & Hr) & (x & Hx) & (n & Hn) & (rs & Hrs) & (p & Hp)).
  assert (Ht : truthy (Some a) = true) by (destruct Hu as [Hu _]; eapply field_truthy, Hu).
  apply present_truthy in Hu, Hr, Hx, Hn, Hrs, Hp.
  cbn [attr].
  destruct Hu as [-> _], Hr as [-> _], Hx as [-> _], Hn as [-> _],
    Hrs as [-> _], Hp as [-> _].
  rewrite Ht. reflexivity.
Qed.

(** C3. With nothing missing and both verifiers accepting, Digest
    [authenticate] hashes HA1's input (unless the stored secret already
    is HA1), then HA2's, then the response's, and answers whether the
    expected response equals the client's; the expected response is a
    function of username, realm, password, method, uri and nonce. *)
Theorem digest_hash_chain (self : Authenticator) (request : Request)
    (a : Authorization) (stored : option string)
    (u r x n rs p : string) (w w1 w2 : World) :
  present (username a) u -> present (realm_of a) r -> present (uri a) x ->
  present (nonce a) n -> present (response a) rs -> present stored p ->
  verify_nonce_callback self (nonce a) w = (Ret true, w1) ->
  verify_opaque_callback self (opaque a) w1 = (Ret true, w2) ->
  let expected :=
    expected_response (use_ha1_pw self) u r p (method request) x n in
  HTTPDigestAuth_authenticate self request (Some a) stored w
  = (Ret (safe_str_cmp expected rs),
     after_md5 w2 (chain_inputs (use_ha1_pw self) u r p (method request) x n))
  /\ (safe_str_cmp expected rs = true <-> expected = rs).
Proof.
  intros Hu Hr Hx Hn Hrs Hp Hvn Hvo expected.
  split; [|apply safe_str_cmp_true].
  assert (Hc : complete a stored) by (unfold complete; repeat split; eauto).
  unfold HTTPDigestAuth_authenticate.
  rewrite (complete_passes a stored Hc).
  apply present_truthy in Hu, Hr, Hx, Hn, Hrs, Hp.
  destruct Hu as [_ Hu], Hr as [_ Hr], Hx as [_ Hx], Hn as [_ Hn],
    Hrs as [_ Hrs], Hp as [_ Hp].
  cbn [attr] in *. unfold bind. rewrite Hvn. cbn [negb].
  rewrite Hvo. cbn [negb].
  rewrite Hu, Hr, Hx, Hn, Hrs, Hp.
  subst expected. unfold expected_response, chain_inputs, HA1, HA2, after_md5.
  destruct (use_ha1_pw self); cbn [md5 ret hashed session entropy draws];
    rewrite <- ?app_assoc; reflexivity.
Qed.

(** C4. Whichever check fails first, Digest [authenticate] returns
    [False] and leaves the world that check left: nothing is raised and
    nothing is hashed by [authenticate]. *)
Theorem digest_fails_closed (self : Authenticator) (request : Request)
    (auth : option Authorization) (stored : option string) (w w' : World) :
  digest_check_fails self auth stored w w' ->
  HTTPDigestAuth_authenticate self request auth stored w = (Ret false, w').
Proof.
  intros Hfail. unfold HTTPDigestAuth_authenticate.
  destruct Hfail as [-> | a -> Hf | Hs | a w1 -> Hc Hvn | a w1 w2 -> Hc Hvn Hvo].
  - reflexivity.
  - cbn [attr].
    destruct Hf as [H | [H | [H | [H | H]]]]; apply absent_falsy in H;
      rewrite H; cbn [negb]; rewrite ?orb_true_r; reflexivity.
  - apply absent_falsy in Hs. rewrite Hs. cbn [negb].
    rewrite ?orb_true_r. reflexivity.
  - rewrite (complete_passes a stored Hc). cbn [attr]. unfold bind.
    rewrite Hvn. reflexivity.
  - rewrite (complete_passes a stored Hc). cbn [attr]. unfold bind.
    rewrite Hvn. cbn [negb]. rewrite Hvo. reflexivity.
Qed.

Lemma digest_failure_hashes_nothing (self : Authenticator)
    (auth : option Authorization) (stored : option string) (w w' : World) :
  quiet (verify_nonce_callback self) ->
  quiet (verify_opaque_callback self) ->
  digest_check_fails self auth stored w w' ->
  hashed w' = hashed w.
Proof.
  intros Qn Qo Hfail.
  destruct Hfail as [_ | a _ _ | _ | a w1 _ _ Hvn | a w1 w2 _ _ Hvn Hvo];
    try reflexivity.
  - exact (Qn _ _ _ _ Hvn).
  - rewrite (Qo _ _ _ _ Hvo). exact (Qn _ _ _ _ Hvn).
Qed.

(** ** Basic authentication *)

Lemma secrets_agree_iff (client stored : option string) :
  secrets_agree client stored = true
  <-> exists p, client = Some p /\ stored = Some p.
Proof.
  unfold secrets_agree. destruct client as [c|], stored as [s|];
    try (split; [discriminate | intros (p & H1 & H2); discriminate]).
  rewrite bool_decide_eq_true. split.
  - intros ->. eauto.
  - intros (p & H1 & H2). congruence.
Qed.

Lemma safe_str_cmp_decides (c s : string) :
  safe_str_cmp c s = bool_decide (c = s).
Proof.
  apply eq_true_iff_eq. rewrite safe_str_cmp_true, bool_decide_eq_true.
  reflexivity.
Qed.

Lemma mutate_differs (s : string) :
  forall (i : nat) (c c0 : ascii),
    String.get i s = Some c0 -> c <> c0 -> mutate s i c <> s.
Proof.
  induction s as [|x s IH]; intros [|i] c c0 Hget Hne; simpl in *;
    try discriminate.
  - intros [= ->]. congruence.
  - intros [= H]. exact (IH i c c0 Hget Hne H).
Qed.

(** C5. With neither a verify nor a hash callback, Basic [authenticate]
    succeeds exactly when the client's password and the stored secret
    are both there and equal; a password that differs from the stored
    secret, by a single character or more, fails. *)
Theorem basic_plain_compare (self : Authenticator) (auth : option Authorization)
    (stored : option string) (w : World) :
  verify_password_callback self = None ->
  hash_password_callback self = None ->
  truthy auth = true ->
  HTTPBasicAuth_authenticate self auth stored w
  = (Ret (secrets_agree (attr password auth) stored), w)
  /\ (secrets_agree (attr password auth) stored = true
      <-> exists p, attr password auth = Some p /\ stored = Some p)
  /\ (forall p' s, attr password auth = Some p' -> stored = Some s ->
                   p' <> s -> secrets_agree (attr password auth) stored = false)
  /\ (forall s i c c0, stored = Some s -> String.get i s = Some c0 -> c <> c0 ->
                       attr password auth = Some (mutate s i c) ->
                       secrets_agree (attr password auth) stored = false).
Proof.
  intros Hv Hh Ht. split; [|split; [|split]].
  - unfold HTTPBasicAuth_authenticate. rewrite Hv, Hh, Ht. cbn [negb].
    unfold bind, ret, secrets_agree.
    destruct (attr password auth) as [c|], stored as [s|]; try reflexivity.
    rewrite safe_str_cmp_decides. reflexivity.
  - apply secrets_agree_iff.
  - intros p' s -> -> Hne. simpl. apply bool_decide_eq_false. exact Hne.
  - intros s i c c0 -> Hget Hne ->. simpl. apply bool_decide_eq_false.
    exact (mutate_differs s i c c0 Hget Hne).
Qed.

(** The stored secret reaches [authenticate] through
    [get_auth_password], which asks the lookup callback only for a
    username that is not empty. *)
Lemma get_auth_password_lookup (self : Authenticator) (a : Authorization)
    (u : string) (w : World) :
  present (username a) u ->
  HTTPAuth_get_auth_password self (Some a) w = get_password_callback self u w.
Proof.
  intros Hu. unfold HTTPAuth_get_auth_password.
  assert (Ht : truthy (Some a) = true) by (destruct Hu as [Hu _]; eapply field_truthy, Hu).
  apply present_truthy in Hu. cbn [attr]. destruct Hu as [-> ->].
  rewrite Ht. reflexivity.
Qed.

Lemma get_auth_password_no_username (self : Authenticator)
    (auth : option Authorization) (w : World) :
  absent (attr username auth) ->
  HTTPAuth_get_auth_password self auth w = (Ret None, w).
Proof.
  intros Hu. unfold HTTPAuth_get_auth_password.
  rewrite (absent_falsy _ Hu), andb_false_r. reflexivity.
Qed.

(** ** Credential parsing *)

Lemma contains_getitem (h : Headers) (k : string) :
  contains h k = match getitem h k with Some _ => true | None => false end.
Proof.
  induction h as [|[k' v] h IH]; simpl; [reflexivity|].
  destruct (same_name k' k); simpl; [reflexivity | exact IH].
Qed.

(** [get_auth] compares the scheme of the credentials the request
    carries, and raises only when it has a credential to compare with a
    scheme that is [None]. *)
Lemma get_auth_carried (self : Authenticator) (request : Request) :
  HTTPAuth_get_auth self request
  = match carried request with
    | None => Ret None
    | Some a =>
        match scheme self with
        | None => Raise AttributeError
        | Some s =>
            if String.eqb (lower (type a)) (lower s) then Ret (Some a)
            else Ret None
        end
    end.
Proof.
  unfold HTTPAuth_get_auth, carried.
  destruct (authorization request) as [a|] eqn:Ha.
  - cbn. destruct (scheme self) as [s|]; cbn; [|reflexivity].
    destruct (String.eqb (lower (type a)) (lower s)); reflexivity.
  - cbn [bool_decide decide_rel andb]. rewrite bool_decide_eq_true_2 by reflexivity.
    cbn [andb]. rewrite contains_getitem. unfold getitem_exn.
    destruct (getitem (request_headers request) "Authorization") as [value|];
      [|reflexivity].
    cbn [pbind].
    destruct (split_None_1 value) as [|t [|r [|z l]]]; cbn; try reflexivity.
    destruct (scheme self) as [s|]; cbn; [|reflexivity].
    destruct (String.eqb (lower t) (lower s)); reflexivity.
Qed.

(** Without credentials, and without a verify callback to ask,
    every scheme rejects. *)
Lemma authenticate_no_credentials (self : Authenticator) (request : Request)
    (stored : option string) (w : World) :
  verify_password_callback self = None ->
  verify_token_callback self = None ->
  authenticate self request None stored w = (Ret false, w).
Proof.
  intros Hp Ht. unfold authenticate.
  destruct (cls self).
  - unfold HTTPBasicAuth_authenticate. rewrite Hp. reflexivity.
  - reflexivity.
  - unfold HTTPTokenAuth_authenticate, bind. cbn. rewrite Ht. reflexivity.
Qed.

(** What each scheme does without credentials: Basic and Token ask the
    verify callback, when one is registered, about empty credentials;
    Digest rejects. *)
Lemma authenticate_without_credentials (self : Authenticator) (request : Request)
    (stored : option string) (w : World) :
  authenticate self request None stored w
  = match cls self with
    | Basic =>
        match verify_password_callback self with
        | Some verify => verify (Some "") (Some "") w
        | None => (Ret false, w)
        end
    | Digest => (Ret false, w)
    | Token =>
        match verify_token_callback self with
        | Some verify => verify "" w
        | None => (Ret false, w)
        end
    end.
Proof.
  unfold authenticate. destruct (cls self).
  - unfold HTTPBasicAuth_authenticate. cbn [truthy].
    destruct (verify_password_callback self); reflexivity.
  - reflexivity.
  - unfold HTTPTokenAuth_authenticate, bind. cbn [truthy ret].
    destruct (verify_token_callback self); reflexivity.
Qed.

(** C6, as amended. A header with no token after the scheme gives no
    credentials and no exception, exactly as an absent header does;
    credentials whose scheme differs from the configured one, case
    ignored, give no credentials either. Without credentials
    authentication fails and raises nothing when no verify callback is
    registered, and always for Digest; a registered [verify_password] or
    [verify_token] callback is asked about empty credentials and its
    answer, or its exception, is the result. *)
Theorem get_auth_no_credentials (self : Authenticator) (request : Request) :
  (forall value,
      authorization request = None ->
      getitem (request_headers request) "Authorization" = Some value ->
      malformed value ->
      HTTPAuth_get_auth self request = Ret None
      /\ HTTPAuth_get_auth self request
         = HTTPAuth_get_auth self (mkRequest (method request) None []))
  /\ (forall a s,
         carried request = Some a ->
         scheme self = Some s ->
         lower (type a) <> lower s ->
         HTTPAuth_get_auth self request = Ret None)
  /\ (forall stored w,
         HTTPAuth_get_auth self request = Ret None ->
         verify_password_callback self = None ->
         verify_token_callback self = None ->
         HTTPAuth_get_auth_password self None w = (Ret None, w)
         /\ authenticate self request None stored w = (Ret false, w))
  /\ (forall stored w,
         HTTPAuth_get_auth self request = Ret None ->
         (cls self = Digest ->
          authenticate self request None stored w = (Ret false, w))
         /\ (forall verify, cls self = Basic ->
               verify_password_callback self = Some verify ->
               authenticate self request None stored w
               = verify (Some "") (Some "") w)
         /\ (forall verify, cls self = Token ->
               verify_token_callback self = Some verify ->
               authenticate self request None stored w = verify "" w)).
Proof.
  split; [|split; [|split]].
  - intros value Ha Hv Hm.
    assert (Hc : carried request = None).
    { unfold carried. rewrite Ha, Hv.
      destruct (split_None_1 value) as [|t [|r [|z l]]] eqn:Hs; try reflexivity.
      exfalso. eapply Hm, Hs. }
    rewrite !get_auth_carried, Hc. split; reflexivity.
  - intros a s Hc Hs Hne. rewrite get_auth_carried, Hc, Hs.
    destruct (String.eqb (lower (type a)) (lower s)) eqn:He; [|reflexivity].
    apply String.eqb_eq in He. contradiction.
  - intros stored w _ Hp Ht. split; [reflexivity|].
    apply authenticate_no_credentials; assumption.
  - intros stored w _. rewrite authenticate_without_credentials.
    split; [|split].
    + intros ->. reflexivity.
    + intros verify -> ->. reflexivity.
    + intros verify -> ->. reflexivity.
Qed.

(** ** Multi-scheme dispatch *)

Lemma scan_additional_spec (additional : list Authenticator) (tok : string) :
  match scan_additional additional tok with
  | Some a => first_with_scheme additional tok a
  | None => forall b, b ∈ additional -> scheme b <> Some tok
  end.
Proof.
  induction additional as [|x rest IH]; simpl.
  - intros b Hb. inversion Hb.
  - destruct (bool_decide (scheme x = Some tok)) eqn:Hx.
    + apply bool_decide_eq_true in Hx. exists 0%nat.
      split; [reflexivity|]. split; [exact Hx|]. intros j b _ Hj. lia.
    + apply bool_decide_eq_false in Hx.
      destruct (scan_additional rest tok) as [a|].
      * destruct IH as (i & Hi & Ha & Hbefore). exists (Datatypes.S i).
        split; [exact Hi|]. split; [exact Ha|].
        intros [|j] b Hb Hj; simpl in Hb.
        -- inversion Hb; subst. exact Hx.
        -- apply (Hbefore j b Hb). lia.
      * intros b Hb. apply elem_of_cons in Hb as [-> | Hb]; [exact Hx | apply IH, Hb].
Qed.

Lemma selected_auth_scan (self : MultiAuth) (request : Request) :
  MultiAuth_selected_auth self request
  = Ret (match scheme_token request with
         | Some tok =>
             default (main_auth self) (scan_additional (additional_auth self) tok)
         | None => main_auth self
         end).
Proof.
  unfold MultiAuth_selected_auth, scheme_token.
  rewrite contains_getitem. unfold getitem_exn.
  destruct (getitem (request_headers request) "Authorization") as [value|];
    [|reflexivity].
  cbn [pbind].
  destruct (split_None_1 value) as [|t [|r [|z l]]]; cbn; try reflexivity.
  destruct (scan_additional (additional_auth self) t); reflexivity.
Qed.

(** C7. [selected_auth] never raises. With a header that has a scheme
    token and a second token it is the first additional authenticator
    whose scheme is exactly that token, or the primary when there is
    none; with no header, or a header without a second token, it is the
    primary. *)
Theorem selected_auth_first_match (self : MultiAuth) (request : Request) :
  exists a,
    MultiAuth_selected_auth self request = Ret a
    /\ match scheme_token request with
       | Some tok =>
           first_with_scheme (additional_auth self) tok a
           \/ ((forall b, b ∈ additional_auth self -> scheme b <> Some tok)
               /\ a = main_auth self)
       | None => a = main_auth self
       end.
Proof.
  rewrite selected_auth_scan. eexists. split; [reflexivity|].
  destruct (scheme_token request) as [tok|]; [|reflexivity].
  pose proof (scan_additional_spec (additional_auth self) tok) as H.
  destruct (scan_additional (additional_auth self) tok) as [a|]; simpl.
  - left. exact H.
  - right. split; [exact H | reflexivity].
Qed.

(** ** The role-aware dispatcher *)

Lemma check_role_capable_spec (auths : list Authenticator) :
  check_role_capable auths
  = if forallb isinstance_HTTPRoleAuthMixin auths then Ret tt else Raise TypeError.
Proof.
  induction auths as [|a rest IH]; simpl; [reflexivity|].
  destruct (isinstance_HTTPRoleAuthMixin a); simpl; [exact IH | reflexivity].
Qed.

Lemma scan_additional_elem (additional : list Authenticator) (tok : string)
    (a : Authenticator) :
  scan_additional additional tok = Some a -> a ∈ additional.
Proof.
  induction additional as [|x rest IH]; simpl; [discriminate|].
  destruct (bool_decide (scheme x = Some tok)).
  - intros [= ->]. apply list_elem_of_here.
  - intros H. apply list_elem_of_further, IH, H.
Qed.

Lemma selected_auth_registered (self : MultiAuth) (request : Request) :
  exists a,
    MultiAuth_selected_auth self request = Ret a
    /\ a ∈ main_auth self :: additional_auth self.
Proof.
  rewrite selected_auth_scan. eexists. split; [reflexivity|].
  destruct (scheme_token request) as [tok|]; [|apply list_elem_of_here].
  destruct (scan_additional (additional_auth self) tok) as [a|] eqn:Hs; simpl.
  - apply list_elem_of_further, (scan_additional_elem _ tok), Hs.
  - apply list_elem_of_here.
Qed.

(** C8. Constructing [MultiRoleAuth] raises [TypeError] when some
    authenticator, primary or additional, lacks the role mixin, and
    succeeds when all have it; an object that was constructed therefore
    always selects a role-capable authenticator, whose parameterized
    [login_required] is the one that runs. *)
Theorem multi_role_auth_init (main : Authenticator) (args : list Authenticator) :
  ((exists a, a ∈ main :: args /\ isinstance_HTTPRoleAuthMixin a = false) ->
   MultiRoleAuth_init main args = Raise TypeError)
  /\ ((forall a, a ∈ main :: args -> isinstance_HTTPRoleAuthMixin a = true) ->
      MultiRoleAuth_init main args = Ret (mkMultiAuth main args))
  /\ (forall m, MultiRoleAuth_init main args = Ret m ->
        forall request, exists a,
          MultiAuth_selected_auth m request = Ret a
          /\ isinstance_HTTPRoleAuthMixin a = true
          /\ forall roles use_all f,
               MultiRoleAuth_login_required m roles use_all f request
               = HTTPRoleAuthMixin_login_required a roles use_all f request).
Proof.
  unfold MultiRoleAuth_init. rewrite check_role_capable_spec.
  destruct (forallb isinstance_HTTPRoleAuthMixin (main :: args)) eqn:Hall.
  - rewrite forallb_forall in Hall. split; [|split].
    + intros (a & Hin & Hno). apply list_elem_of_In, Hall in Hin. congruence.
    + intros _. reflexivity.
    + intros m [= <-] request.
      destruct (selected_auth_registered (mkMultiAuth main args) request)
        as (a & Hsel & Hin).
      exists a. split; [exact Hsel|].
      assert (Hrole : isinstance_HTTPRoleAuthMixin a = true)
        by (apply Hall, list_elem_of_In, Hin).
      split; [exact Hrole|]. intros roles use_all f.
      unfold MultiRoleAuth_login_required. rewrite Hsel.
      unfold login_required_with_roles, bind, lift. rewrite Hrole. reflexivity.
  - split; [|split].
    + intros _. reflexivity.
    + intros H. exfalso.
      assert (Ht : forallb isinstance_HTTPRoleAuthMixin (main :: args) = true).
      { apply forallb_forall. intros a Hin. apply H, list_elem_of_In, Hin. }
      congruence.
    + intros m Hm. discriminate.
Qed.

(** ** The error responder *)

Lemma getitem_setitem (h : Headers) (k v : string) :
  getitem (setitem h k v) k = Some v.
Proof.
  assert (Hk : same_name k k = true) by apply String.eqb_refl.
  induction h as [|[k' v'] h IH]; simpl.
  - rewrite Hk. reflexivity.
  - destruct (same_name k' k) eqn:He; simpl.
    + rewrite Hk. reflexivity.
    + rewrite He. exact IH.
Qed.

(** X22. The response of the error callback leaves the responder with
    status 401 when the callback left it at 200 and with the callback's
    status otherwise; when the callback's response has a header stored
    under the exact name WWW-Authenticate, status apart it is returned as
    it is, headers and body, and no challenge is generated; without
    such a key the header is set to the authenticator's challenge. *)
Theorem error_handler_response (self : Authenticator) (res : Response)
    (w w1 : World) :
  error_callback self w = (Ret res, w1) ->
  ("WWW-Authenticate" ∈ keys (headers res) ->
   auth_error_callback self w
   = (Ret (mkResponse (final_status (status_code res)) (headers res) (body res)), w1))
  /\ (forall challenge w2,
        "WWW-Authenticate" ∉ keys (headers res) ->
        authenticate_header self w1 = (Ret challenge, w2) ->
        auth_error_callback self w
        = (Ret (mkResponse (final_status (status_code res))
                           (setitem (headers res) "WWW-Authenticate" challenge)
                           (body res)), w2)
        /\ getitem (setitem (headers res) "WWW-Authenticate" challenge)
                   "WWW-Authenticate" = Some challenge).
Proof.
  intros Hcb. unfold auth_error_callback, error_handler_decorated, bind.
  rewrite Hcb. split.
  - intros Hin. unfold final_status, set_status_code.
    destruct (status_code res =? 200) eqn:Hs; cbn [headers].
    + rewrite bool_decide_eq_true_2 by exact Hin. reflexivity.
    + rewrite bool_decide_eq_true_2 by exact Hin. destruct res; reflexivity.
  - intros challenge w2 Hnot Hch. split; [|apply getitem_setitem].
    unfold final_status, set_status_code.
    destruct (status_code res =? 200) eqn:Hs; cbn [headers];
      rewrite bool_decide_eq_false_2 by exact Hnot; cbn [negb];
      rewrite Hch; reflexivity.
Qed.

(** C9 at a failing input: the error callback answers 403 with its own
    header, stored as www-authenticate. The test on [keys()] compares by
    exact spelling and does not see it; the assignment compares without
    regard to case and replaces it, so the callback's value is lost. *)
Theorem error_handler_overwrites_other_spelling :
  let custom := mkResponse 403 [("www-authenticate", "Custom")] "no" in
  let challenge := "Basic realm=" +:+ dq +:+ "Authentication Required" +:+ dq in
  getitem (headers custom) "WWW-Authenticate" = Some "Custom"
  /\ auth_error_callback (error_handler basic_auth (ret custom)) w0
     = (Ret (mkResponse 403 [("WWW-Authenticate", challenge)] "no"), w0)
  /\ getitem [("WWW-Authenticate", challenge)] "WWW-Authenticate" <> Some "Custom".
Proof.
  cbv zeta. split; [reflexivity|]. split; [reflexivity|].
  vm_compute. discriminate.
Qed.

(** ** Worked examples *)

Example md5_rfc1321 :
  md5_hex "" = "d41d8cd98f00b204e9800998ecf8427e"
  /\ md5_hex "a" = "0cc175b9c0f1b6a831c399e269772661"
  /\ md5_hex "abc" = "900150983cd24fb0d6963f7d28e17f72"
  /\ md5_hex "message digest" = "f96b697d7cb7938d525a2f31aaf161d0"
  /\ md5_hex "abcdefghijklmnopqrstuvwxyz" = "c3fcd3d76192e4007dfb496cca67e13b".
Proof. vm_compute. repeat split. Qed.

Example split_examples :
  split_None_1 "Bearer xyz" = ["Bearer"; "xyz"]
  /\ split_None_1 "Basic" = ["Basic"]
  /\ split_None_1 "" = []
  /\ split_None_1 "  Digest   a b " = ["Digest"; "a b "].
Proof. vm_compute. repeat split. Qed.

Example challenge_issued :
  authenticate_header digest_auth w0
  = (Ret ("Digest realm=" +:+ dq +:+ "Authentication Required" +:+ dq
          +:+ ",nonce=" +:+ dq +:+ nonce0 +:+ dq
          +:+ ",opaque=" +:+ dq +:+ opaque0 +:+ dq),
     mkWorld (<["auth_opaque" := opaque0]> (<["auth_nonce" := nonce0]> ∅))
             (entropy w0) 2 ["0.5"; "0.25"]).
Proof. vm_compute. reflexivity. Qed.

(** *** Roles *)

(** C1 at the input the claim names: in ALL mode an identity with the
    single role a is authorized for an endpoint that requires a and b,
    although b is not among its roles. *)
Theorem authorize_all_mode_a_for_ab :
  HTTPRoleAuthMixin_authorize (roles_auth ["a"]) (Some (cred_basic "alice" "secret"))
                              (Some ["a"; "b"]) true w0
  = (Ret true, w0)
  /\ all_required_present ["a"; "b"] ["a"] = false.
Proof. split; vm_compute; reflexivity. Qed.

Example authorize_all_mode_examples :
  (* identity {a, b}, required {a, b} *)
  fst (HTTPRoleAuthMixin_authorize (roles_auth ["a"; "b"])
         (Some (cred_basic "alice" "secret")) (Some ["a"; "b"]) true w0) = Ret true
  (* identity {a}, required {} *)
  /\ fst (HTTPRoleAuthMixin_authorize (roles_auth ["a"])
            (Some (cred_basic "alice" "secret")) (Some []) true w0) = Ret false
  (* identity {}, required {a} *)
  /\ fst (HTTPRoleAuthMixin_authorize (roles_auth [])
            (Some (cred_basic "alice" "secret")) (Some ["a"]) true w0) = Ret true.
Proof. vm_compute. repeat split. Qed.

Lemma authorize_any_mode_witness :
  HTTPRoleAuthMixin_authorize (roles_auth ["a"]) (Some (cred_basic "alice" "secret"))
                              (Some ["a"; "b"]) false w0
  = (Ret true, w0)
  /\ HTTPRoleAuthMixin_authorize (roles_auth []) (Some (cred_basic "alice" "secret"))
                                 (Some ["a"]) false w0
     = (Ret false, w0).
Proof.
  split.
  - exact (proj1 (authorize_any_mode (roles_auth ["a"]) (fun _ => ret ["a"]) eq_refl
                    (cred_basic "alice" "secret") ["a"; "b"] ["a"] w0 w0
                    eq_refl eq_refl)).
  - exact (proj1 (authorize_any_mode (roles_auth []) (fun _ => ret []) eq_refl
                    (cred_basic "alice" "secret") ["a"] [] w0 w0
                    eq_refl eq_refl)).
Defined.

Lemma authorize_without_roles_witness :
  HTTPRoleAuthMixin_verify (roles_auth ["admin"]) (get_protected None []) None false
                           (Some (cred_basic "alice" "secret")) (Some "secret") w0
  = (Raise TypeError, w0)
  /\ HTTPRoleAuthMixin_verify (roles_auth []) (get_protected None []) None true
                              (Some (cred_basic "alice" "secret")) (Some "secret") w0
     = (Ret true, w0).
Proof.
  split.
  - exact (proj2 (authorize_without_roles (roles_auth ["admin"])
                    (fun _ => ret ["admin"]) eq_refl (get_protected None [])
                    (cred_basic "alice" "secret") (Some "secret") false ["admin"]
                    w0 w0 w0 eq_refl eq_refl eq_refl)).
  - exact (proj2 (authorize_without_roles (roles_auth [])
                    (fun _ => ret []) eq_refl (get_protected None [])
                    (cred_basic "alice" "secret") (Some "secret") true []
                    w0 w0 w0 eq_refl eq_refl eq_refl)).
Defined.

(** The decorated view itself: a request that authenticates crashes
    with [TypeError] when [roles] was left out. *)
Example login_required_without_roles :
  fst (HTTPRoleAuthMixin_login_required (roles_auth ["admin"]) None false ok_view
         (get_protected (Some (cred_basic "alice" "secret")) []) w0)
  = Raise TypeError
  /\ fst (HTTPRoleAuthMixin_login_required (roles_auth ["admin"]) (Some ["admin"])
            false ok_view
            (get_protected (Some (cred_basic "alice" "secret")) []) w0)
     = Ret (mkResponse 200 [] "hello").
Proof. vm_compute. repeat split. Qed.

(** *** Digest *)

(** What the default generators store, the default verifiers accept, and
    nothing else. *)
Lemma default_nonce_round_trip (w w' : World) (n : string) :
  default_generate_nonce w = (Ret n, w') ->
  default_verify_nonce (Some n) w' = (Ret true, w').
Proof.
  unfold default_generate_nonce, default_verify_nonce, _generate_random,
    session_getitem, bind, random_str, md5, session_set, session_get, ret.
  cbn [session]. rewrite lookup_insert_eq. intros [= <- <-].
  cbn [session]. rewrite lookup_insert_eq, safe_str_cmp_refl. reflexivity.
Qed.

Lemma default_opaque_round_trip (w w' : World) (o : string) :
  default_generate_opaque w = (Ret o, w') ->
  default_verify_opaque (Some o) w' = (Ret true, w').
Proof.
  unfold default_generate_opaque, default_verify_opaque, _generate_random,
    session_getitem, bind, random_str, md5, session_set, session_get, ret.
  cbn [session]. rewrite lookup_insert_eq. intros [= <- <-].
  cbn [session]. rewrite lookup_insert_eq, safe_str_cmp_refl. reflexivity.
Qed.

Lemma default_verify_nonce_quiet (n : option string) (w : World) :
  exists b, default_verify_nonce n w = (Ret b, w)
            /\ (b = true <-> exists s, n = Some s /\ session w !! "auth_nonce" = Some s).
Proof.
  unfold default_verify_nonce, bind, session_get, ret.
  destruct n as [s|], (session w !! "auth_nonce") as [sn|]; eexists;
    (split; [reflexivity|]);
    try (split; [discriminate | intros (z & H1 & H2); discriminate]).
  rewrite safe_str_cmp_true. split.
  - intros ->. eauto.
  - intros (z & H1 & H2). congruence.
Qed.

Lemma default_verify_opaque_quiet (o : option string) (w : World) :
  exists b, default_verify_opaque o w = (Ret b, w)
            /\ (b = true <-> exists s, o = Some s /\ session w !! "auth_opaque" = Some s).
Proof.
  unfold default_verify_opaque, bind, session_get, ret.
  destruct o as [s|], (session w !! "auth_opaque") as [so|]; eexists;
    (split; [reflexivity|]);
    try (split; [discriminate | intros (z & H1 & H2); discriminate]).
  rewrite safe_str_cmp_true. split.
  - intros ->. eauto.
  - intros (z & H1 & H2). congruence.
Qed.

(** X3. With the default verifiers a nonce or opaque that is not the
    session's (a stale or replayed one, or none at all) makes Digest
    [authenticate] fail and leaves the world untouched. *)
Lemma digest_default_verifiers_reject (self : Authenticator) (request : Request)
    (a : Authorization) (stored : option string) (w : World) :
  verify_nonce_callback self = default_verify_nonce ->
  verify_opaque_callback self = default_verify_opaque ->
  session w !! "auth_nonce" <> nonce a \/ session w !! "auth_opaque" <> opaque a
  \/ nonce a = None \/ opaque a = None ->
  HTTPDigestAuth_authenticate self request (Some a) stored w = (Ret false, w).
Proof.
  intros Hn Ho Hbad. unfold HTTPDigestAuth_authenticate.
  destruct (negb (truthy (Some a)) || negb (truthy_str (attr username (Some a)))
            || negb (truthy_str (attr realm_of (Some a)))
            || negb (truthy_str (attr uri (Some a)))
            || negb (truthy_str (attr nonce (Some a)))
            || negb (truthy_str (attr response (Some a)))
            || negb (truthy_str stored)); [reflexivity|].
  unfold bind. rewrite Hn, Ho. cbn [attr].
  destruct (default_verify_nonce_quiet (nonce a) w) as (bn & -> & Hbn).
  destruct bn; cbn [negb]; [|reflexivity].
  destruct (default_verify_opaque_quiet (opaque a) w) as (bo & -> & Hbo).
  destruct bo; cbn [negb]; [|reflexivity].
  exfalso.
  destruct (proj1 Hbn eq_refl) as (sn & Hsn & Hwn).
  destruct (proj1 Hbo eq_refl) as (so & Hso & Hwo).
  destruct Hbad as [H | [H | [H | H]]]; congruence.
Qed.

Lemma digest_hash_chain_witness :
  HTTPDigestAuth_authenticate digest_auth (get_protected (Some good_digest) [])
                              (Some good_digest) (Some "secret") challenged
  = (Ret true,
     after_md5 challenged
       ["alice:Authentication Required:secret"; "GET:/protected";
        "e1942f91cd2f94fc4115fd22fa9ca22d:" +:+ nonce0
          +:+ ":300a0fe56a91178aabcea48cae36a95d"]).
Proof.
  refine (proj1 (digest_hash_chain digest_auth (get_protected (Some good_digest) [])
                   good_digest (Some "secret")
                   "alice" "Authentication Required" "/protected" nonce0
                   "d81f1b47f2571e62a9edefc86a30c1fd" "secret"
                   challenged challenged challenged _ _ _ _ _ _ _ _));
    try (split; [reflexivity | discriminate]); vm_compute; reflexivity.
Defined.

Lemma digest_fails_closed_witness :
  HTTPDigestAuth_authenticate digest_auth (get_protected None [])
    (Some (cred_digest "alice" "0123456789abcdef0123456789abcdef" opaque0
                       "d81f1b47f2571e62a9edefc86a30c1fd"))
    (Some "secret") challenged
  = (Ret false, challenged).
Proof.
  apply digest_fails_closed.
  eapply nonce_rejected; [reflexivity | | vm_compute; reflexivity].
  repeat split; eexists; (split; [reflexivity | discriminate]).
Defined.

Example digest_failures :
  let request := get_protected None [] in
  let run auth stored :=
    HTTPDigestAuth_authenticate digest_auth request auth stored challenged in
  (* no credential *)
  run None (Some "secret") = (Ret false, challenged)
  (* an empty username *)
  /\ run (Some (cred_digest "" nonce0 opaque0 "d81f1b47f2571e62a9edefc86a30c1fd"))
         (Some "secret") = (Ret false, challenged)
  (* no stored secret, and an empty one *)
  /\ run (Some good_digest) None = (Ret false, challenged)
  /\ run (Some good_digest) (Some "") = (Ret false, challenged)
  (* another opaque than the session's *)
  /\ run (Some (cred_digest "alice" nonce0 nonce0 "d81f1b47f2571e62a9edefc86a30c1fd"))
         (Some "secret") = (Ret false, challenged)
  (* the wrong password: the chain is hashed and the comparison fails *)
  /\ fst (run (Some good_digest) (Some "Secret")) = Ret false
  /\ hashed (snd (run (Some good_digest) (Some "Secret"))) <> hashed challenged.
Proof. vm_compute. repeat split. discriminate. Qed.

(** The same credential through the decorated view, before and after
    the session's nonce was replaced by a new challenge. *)
Example digest_login_and_replay :
  let request := get_protected (Some good_digest) [] in
  fst (HTTPAuth_login_required digest_auth ok_view request challenged)
  = Ret (mkResponse 200 [] "hello")
  /\ status_code <$> returned
       (fst (HTTPAuth_login_required digest_auth ok_view request
               (snd (authenticate_header digest_auth challenged))))
     = Some 401.
Proof. vm_compute. repeat split. Qed.

(** *** Basic *)

Lemma basic_plain_compare_witness :
  HTTPBasicAuth_authenticate basic_auth (Some (cred_basic "alice" "secret"))
                             (Some "secret") w0
  = (Ret true, w0)
  /\ HTTPBasicAuth_authenticate basic_auth (Some (cred_basic "alice" "secreT"))
                                (Some "secret") w0
     = (Ret false, w0).
Proof.
  split.
  - exact (proj1 (basic_plain_compare basic_auth (Some (cred_basic "alice" "secret"))
                    (Some "secret") w0 eq_refl eq_refl eq_refl)).
  - exact (proj1 (basic_plain_compare basic_auth (Some (cred_basic "alice" "secreT"))
                    (Some "secret") w0 eq_refl eq_refl eq_refl)).
Defined.

Example basic_login :
  let run auth := fst (HTTPAuth_login_required basic_auth ok_view
                         (get_protected auth []) w0) in
  run (Some (cred_basic "alice" "secret")) = Ret (mkResponse 200 [] "hello")
  /\ status_code <$> returned (run (Some (cred_basic "alice" "secre"))) = Some 401
  /\ status_code <$> returned (run (Some (cred_basic "bob" "secret"))) = Some 401
  /\ status_code <$> returned (run None) = Some 401.
Proof. vm_compute. repeat split. Qed.

(** A lookup that knows a secret for the empty username is never asked
    for it. *)
Example basic_empty_username :
  let auth := get_password (HTTPBasicAuth None None) (fun _ => ret (Some "secret")) in
  status_code <$> returned
    (fst (HTTPAuth_login_required auth ok_view
            (get_protected (Some (cred_basic "" "secret")) []) w0))
  = Some 401.
Proof. vm_compute. reflexivity. Qed.

(** A hash callback of two arguments is reached through the
    [TypeError] of the call with one. *)
Example basic_hash_two_arguments :
  let salted :=
    mkHashCallback (fun _ => raise TypeError)
                   (fun u p => ret (Some (str u +:+ "$" +:+ str p))) in
  fst (HTTPBasicAuth_authenticate (hash_password basic_auth salted)
         (Some (cred_basic "alice" "secret")) (Some "alice$secret") w0)
  = Ret true.
Proof. vm_compute. reflexivity. Qed.

(** *** Credential parsing *)

Lemma get_auth_no_credentials_witness :
  HTTPAuth_get_auth basic_auth (get_protected None [("Authorization", "Basic")])
  = Ret None
  /\ HTTPAuth_get_auth basic_auth (get_protected None [("Authorization", "Bearer xyz")])
     = Ret None
  /\ authenticate basic_auth (get_protected None [("Authorization", "Basic")])
                  None None w0
     = (Ret false, w0)
  /\ authenticate (verify_password basic_auth (fun _ _ => ret true))
                  (get_protected None [("Authorization", "Basic")]) None None w0
     = (Ret true, w0).
Proof.
  split; [|split; [|split]].
  - refine (proj1 (proj1 (get_auth_no_credentials basic_auth
                            (get_protected None [("Authorization", "Basic")]))
                         "Basic" eq_refl eq_refl _)).
    intros t r. vm_compute. discriminate.
  - refine (proj1 (proj2 (get_auth_no_credentials basic_auth
                            (get_protected None [("Authorization", "Bearer xyz")])))
                  (mkAuthorization "Bearer" {[ "token" := "xyz" ]}) "Basic"
                  eq_refl eq_refl _).
    vm_compute. discriminate.
  - exact (proj2 (proj1 (proj2 (proj2 (get_auth_no_credentials basic_auth
                                  (get_protected None [("Authorization", "Basic")]))))
                        None w0 eq_refl eq_refl eq_refl)).
  - exact (proj1 (proj2 (proj2 (proj2 (proj2 (get_auth_no_credentials
                     (verify_password basic_auth (fun _ _ => ret true))
                     (get_protected None [("Authorization", "Basic")]))))
                   None w0 eq_refl))
                 (fun _ _ => ret true) eq_refl eq_refl).
Defined.

(** The claim as first stated fails here: the header has no token, no
    credentials are found, and yet authentication does not fail, because
    the registered [verify_password] accepts the empty credentials; with
    a callback that raises on them, authentication raises. *)
Lemma malformed_header_not_rejected :
  let request := get_protected None [("Authorization", "Basic")] in
  let accepting := verify_password basic_auth (fun _ _ => ret true) in
  let raising := verify_password basic_auth (fun _ _ => raise ValueError) in
  HTTPAuth_get_auth accepting request = Ret None
  /\ authenticate accepting request None None w0 <> (Ret false, w0)
  /\ HTTPAuth_login_required accepting ok_view request w0 = ok_view w0
  /\ HTTPAuth_login_required raising ok_view request w0 = (Raise ValueError, w0).
Proof.
  cbv zeta. split; [reflexivity|]. split; [|split; reflexivity].
  vm_compute. discriminate.
Qed.

Example get_auth_examples :
  (* the scheme compares without regard to case *)
  HTTPAuth_get_auth token_auth (get_protected None [("Authorization", "bEARER xyz")])
  = Ret (Some (mkAuthorization "bEARER" {[ "token" := "xyz" ]}))
  (* the header name too *)
  /\ HTTPAuth_get_auth token_auth (get_protected None [("authorization", "Bearer xyz")])
     = Ret (Some (cred_token "xyz"))
  (* no header, an empty one, a scheme alone *)
  /\ HTTPAuth_get_auth token_auth (get_protected None []) = Ret None
  /\ HTTPAuth_get_auth token_auth (get_protected None [("Authorization", "")]) = Ret None
  /\ HTTPAuth_get_auth token_auth (get_protected None [("Authorization", "Bearer ")])
     = Ret None
  (* a scheme that is None has nothing to lower *)
  /\ HTTPAuth_get_auth (HTTPTokenAuth None None)
       (get_protected None [("Authorization", "Bearer xyz")])
     = Raise AttributeError
  /\ HTTPAuth_get_auth (HTTPTokenAuth None None)
       (get_protected None [("Authorization", "Bearer")])
     = Ret None.
Proof. vm_compute. repeat split. Qed.

(** *** Dispatch *)

Example selected_auth_examples :
  let multi := mkMultiAuth basic_auth [digest_auth; token_auth] in
  let sel h := scheme <$> returned (MultiAuth_selected_auth multi (get_protected None h)) in
  sel [("Authorization", "Bearer xyz")] = Some (Some "Bearer")
  /\ sel [("Authorization", "Digest abc")] = Some (Some "Digest")
  /\ sel [("Authorization", "Basic abc")] = Some (Some "Basic")
  /\ sel [] = Some (Some "Basic")
  /\ sel [("Authorization", "Bearer")] = Some (Some "Basic")
  (* the comparison is exact *)
  /\ sel [("Authorization", "bearer xyz")] = Some (Some "Basic").
Proof. vm_compute. repeat split. Qed.

Example selected_auth_routes :
  let multi := mkMultiAuth basic_auth [token_auth] in
  MultiAuth_selected_auth multi (get_protected None [("Authorization", "Bearer xyz")])
  = Ret token_auth
  /\ MultiAuth_selected_auth multi
       (get_protected (Some (cred_basic "alice" "secret"))
                      [("Authorization", "Basic abc")])
     = Ret basic_auth
  /\ MultiAuth_selected_auth multi (get_protected None []) = Ret basic_auth.
Proof. repeat split. Qed.

Example multi_login :
  let multi := mkMultiAuth basic_auth [token_auth] in
  let run auth h := fst (MultiAuth_login_required multi ok_view (get_protected auth h) w0) in
  run None [("Authorization", "Bearer xyz")] = Ret (mkResponse 200 [] "hello")
  /\ status_code <$> returned (run None [("Authorization", "Bearer abc")]) = Some 401
  /\ run (Some (cred_basic "alice" "secret")) [("Authorization", "Basic YWxpY2U6c2VjcmV0")]
     = Ret (mkResponse 200 [] "hello").
Proof. vm_compute. repeat split. Qed.

(** *** The role-aware dispatcher *)

Lemma multi_role_auth_init_witness :
  MultiRoleAuth_init (roles_auth ["admin"]) [token_auth] = Raise TypeError
  /\ MultiRoleAuth_init (roles_auth ["admin"]) [token_roles_auth]
     = Ret (mkMultiAuth (roles_auth ["admin"]) [token_roles_auth]).
Proof.
  split.
  - refine (proj1 (multi_role_auth_init (roles_auth ["admin"]) [token_auth]) _).
    exists token_auth. split; [|reflexivity].
    apply list_elem_of_further, list_elem_of_here.
  - refine (proj1 (proj2 (multi_role_auth_init (roles_auth ["admin"])
                            [token_roles_auth])) _).
    intros a Ha.
    apply elem_of_cons in Ha as [-> | Ha]; [reflexivity|].
    apply elem_of_cons in Ha as [-> | Ha]; [reflexivity|].
    inversion Ha.
Defined.

(** What construction rules out: a dispatcher put together without the
    check raises only when a request selects the plain authenticator. *)
Example unchecked_dispatcher_fails_at_request :
  let multi := mkMultiAuth (roles_auth ["admin"]) [token_auth] in
  fst (MultiRoleAuth_login_required multi (Some ["admin"]) false ok_view
         (get_protected None [("Authorization", "Bearer xyz")]) w0)
  = Raise TypeError
  /\ fst (MultiRoleAuth_login_required multi (Some ["admin"]) false ok_view
            (get_protected (Some (cred_basic "alice" "secret")) []) w0)
     = Ret (mkResponse 200 [] "hello").
Proof. vm_compute. repeat split. Qed.

(** *** The error responder *)

Lemma error_handler_response_witness :
  auth_error_callback basic_auth w0
  = (Ret (mkResponse 401
            [("Content-Type", "text/html; charset=utf-8"); ("Content-Length", "19");
             ("WWW-Authenticate",
              "Basic realm=" +:+ dq +:+ "Authentication Required" +:+ dq)]
            "Unauthorized Access"), w0)
  /\ auth_error_callback
       (error_handler basic_auth
          (ret (mkResponse 403 [("WWW-Authenticate", "Custom")] "no"))) w0
     = (Ret (mkResponse 403 [("WWW-Authenticate", "Custom")] "no"), w0).
Proof.
  split.
  - refine (proj1 (proj2 (error_handler_response basic_auth _ w0 w0 eq_refl)
                         _ w0 _ eq_refl)).
    vm_compute. intros H. repeat (apply elem_of_cons in H as [H | H]; [discriminate|]).
    inversion H.
  - refine (proj1 (error_handler_response
                     (error_handler basic_auth
                        (ret (mkResponse 403 [("WWW-Authenticate", "Custom")] "no")))
                     _ w0 w0 eq_refl) _).
    apply list_elem_of_here.
Defined.

(** * Further properties of the code *)

(** ** Shared steps *)

Lemma md5_hex_nonempty (s : string) : md5_hex s <> "".
Proof.
  intros H. pose proof (md5_hex_length s) as Hl. rewrite H in Hl. discriminate.
Qed.

Lemma default_generate_nonce_run (w : World) :
  default_generate_nonce w
  = (Ret (md5_hex (entropy w (draws w))),
     mkWorld (<["auth_nonce" := md5_hex (entropy w (draws w))]> (session w))
             (entropy w) (Datatypes.S (draws w)) (hashed w ++ [entropy w (draws w)])).
Proof.
  unfold default_generate_nonce, _generate_random, session_getitem, bind,
    random_str, md5, session_set, session_get, ret.
  cbn [session entropy draws hashed]. rewrite lookup_insert_eq. reflexivity.
Qed.

Lemma default_generate_opaque_run (w : World) :
  default_generate_opaque w
  = (Ret (md5_hex (entropy w (draws w))),
     mkWorld (<["auth_opaque" := md5_hex (entropy w (draws w))]> (session w))
             (entropy w) (Datatypes.S (draws w)) (hashed w ++ [entropy w (draws w)])).
Proof.
  unfold default_generate_opaque, _generate_random, session_getitem, bind,
    random_str, md5, session_set, session_get, ret.
  cbn [session entropy draws hashed]. rewrite lookup_insert_eq. reflexivity.
Qed.

Lemma default_verify_nonce_run (n : option string) (w : World) :
  default_verify_nonce n w
  = (Ret (match n with
          | Some s => bool_decide (session w !! "auth_nonce" = Some s)
          | None => false
          end), w).
Proof.
  unfold default_verify_nonce, bind, session_get, ret.
  destruct n as [s|], (session w !! "auth_nonce") as [sn|]; try reflexivity.
  rewrite safe_str_cmp_decides. f_equal. f_equal.
  apply eq_true_iff_eq. rewrite !bool_decide_eq_true. split; congruence.
Qed.

Lemma default_verify_opaque_run (o : option string) (w : World) :
  default_verify_opaque o w
  = (Ret (match o with
          | Some s => bool_decide (session w !! "auth_opaque" = Some s)
          | None => false
          end), w).
Proof.
  unfold default_verify_opaque, bind, session_get, ret.
  destruct o as [s|], (session w !! "auth_opaque") as [so|]; try reflexivity.
  rewrite safe_str_cmp_decides. f_equal. f_equal.
  apply eq_true_iff_eq. rewrite !bool_decide_eq_true. split; congruence.
Qed.

Lemma digest_challenge_run (self : Authenticator) (w : World) :
  generate_nonce_callback self = default_generate_nonce ->
  generate_opaque_callback self = default_generate_opaque ->
  HTTPDigestAuth_authenticate_header self w
  = (Ret (digest_challenge_string self (md5_hex (entropy w (draws w)))
                                  (md5_hex (entropy w (Datatypes.S (draws w))))),
     after_challenge w).
Proof.
  intros Hn Ho.
  unfold HTTPDigestAuth_authenticate_header, HTTPDigestAuth_get_nonce,
    HTTPDigestAuth_get_opaque, bind.
  rewrite Hn, Ho, default_generate_nonce_run, default_generate_opaque_run.
  cbn [session entropy draws hashed ret]. unfold after_challenge.
  rewrite <- app_assoc. reflexivity.
Qed.

(** The chain of Digest [authenticate] once every check has passed. *)
Lemma digest_chain_run (self : Authenticator) (request : Request)
    (a : Authorization) (stored : option string)
    (u r x n rs p : string) (w w1 w2 : World) :
  present (username a) u -> present (realm_of a) r -> present (uri a) x ->
  present (nonce a) n -> present (response a) rs -> present stored p ->
  verify_nonce_callback self (nonce a) w = (Ret true, w1) ->
  verify_opaque_callback self (opaque a) w1 = (Ret true, w2) ->
  HTTPDigestAuth_authenticate self request (Some a) stored w
  = (Ret (safe_str_cmp
            (expected_response (use_ha1_pw self) u r p (method request) x n) rs),
     after_md5 w2 (chain_inputs (use_ha1_pw self) u r p (method request) x n)).
Proof.
  intros Hu Hr Hx Hn Hrs Hp Hvn Hvo.
  assert (Hc : complete a stored) by (unfold complete; repeat split; eauto).
  unfold HTTPDigestAuth_authenticate.
  rewrite (complete_passes a stored Hc).
  apply present_truthy in Hu, Hr, Hx, Hn, Hrs, Hp.
  destruct Hu as [_ Hu], Hr as [_ Hr], Hx as [_ Hx], Hn as [_ Hn],
    Hrs as [_ Hrs], Hp as [_ Hp].
  cbn [attr] in *. unfold bind. rewrite Hvn. cbn [negb].
  rewrite Hvo. cbn [negb].
  rewrite Hu, Hr, Hx, Hn, Hrs, Hp.
  unfold expected_response, chain_inputs, HA1, HA2, after_md5.
  destruct (use_ha1_pw self); cbn [md5 ret hashed session entropy draws];
    rewrite <- ?app_assoc; reflexivity.
Qed.

(** ** The Digest challenge and its answer *)

(** X1. With the default generators, issuing a Digest challenge never
    raises: it draws twice, hashes each draw, stores the md5 hex of the
    first as the nonce and of the second as the opaque in the session
    under their two keys, leaves every other session key as it was, and
    returns the header that carries both values. *)
Theorem digest_challenge_issued (self : Authenticator) (w : World) :
  cls self = Digest ->
  generate_nonce_callback self = default_generate_nonce ->
  generate_opaque_callback self = default_generate_opaque ->
  let n := md5_hex (entropy w (draws w)) in
  let o := md5_hex (entropy w (Datatypes.S (draws w))) in
  exists w',
    authenticate_header self w = (Ret (digest_challenge_string self n o), w')
    /\ session w' !! "auth_nonce" = Some n
    /\ session w' !! "auth_opaque" = Some o
    /\ (forall k, k <> "auth_nonce" -> k <> "auth_opaque" ->
                  session w' !! k = session w !! k)
    /\ draws w' = Datatypes.S (Datatypes.S (draws w))
    /\ hashed w' = hashed w ++ [entropy w (draws w); entropy w (Datatypes.S (draws w))]
    /\ String.length n = 32%nat /\ String.length o = 32%nat.
Proof.
  intros Hc Hn Ho n o.
  exists (after_challenge w).
  unfold authenticate_header. rewrite Hc.
  rewrite (digest_challenge_run self w Hn Ho).
  unfold after_challenge. cbn [session draws hashed].
  split; [reflexivity|]. split; [|split; [|split; [|split; [|split; [|split]]]]].
  - rewrite lookup_insert_ne by discriminate. apply lookup_insert_eq.
  - apply lookup_insert_eq.
  - intros k Hk1 Hk2. rewrite !lookup_insert_ne by congruence. reflexivity.
  - reflexivity.
  - reflexivity.
  - apply md5_hex_length.
  - apply md5_hex_length.
Qed.

Lemma digest_challenge_issued_witness :
  exists w',
    authenticate_header digest_auth w0
    = (Ret (digest_challenge_string digest_auth (md5_hex "0.5") (md5_hex "0.25")), w')
    /\ session w' !! "auth_nonce" = Some (md5_hex "0.5")
    /\ session w' !! "auth_opaque" = Some (md5_hex "0.25")
    /\ (forall k, k <> "auth_nonce" -> k <> "auth_opaque" ->
                  session w' !! k = session w0 !! k)
    /\ draws w' = 2%nat
    /\ hashed w' = ["0.5"; "0.25"]
    /\ String.length (md5_hex "0.5") = 32%nat
    /\ String.length (md5_hex "0.25") = 32%nat.
Proof.
  exact (digest_challenge_issued digest_auth w0 eq_refl eq_refl eq_refl).
Defined.

(** X2. A client that answers a challenge is let in: after a challenge
    issued with the default generators, and for a stored secret that is
    not empty, a credential with non-empty username, realm and uri that
    echoes the session's nonce and opaque and whose response is the
    digest chain over the stored secret passes Digest [authenticate]
    with the default verifiers. *)
Theorem digest_round_trip (self : Authenticator) (request : Request)
    (a : Authorization) (stored : option string)
    (u r x p : string) (w : World) :
  generate_nonce_callback self = default_generate_nonce ->
  generate_opaque_callback self = default_generate_opaque ->
  verify_nonce_callback self = default_verify_nonce ->
  verify_opaque_callback self = default_verify_opaque ->
  let w' := snd (HTTPDigestAuth_authenticate_header self w) in
  present (username a) u -> present (realm_of a) r -> present (uri a) x ->
  present stored p ->
  nonce a = session w' !! "auth_nonce" ->
  opaque a = session w' !! "auth_opaque" ->
  response a
  = Some (expected_response (use_ha1_pw self) u r p (method request) x
                            (str (nonce a))) ->
  fst (HTTPDigestAuth_authenticate self request (Some a) stored w') = Ret true.
Proof.
  intros Hgn Hgo Hvn Hvo w' Hu Hr Hx Hp Hn Ho Hrs. subst w'.
  rewrite (digest_challenge_run self w Hgn Hgo) in *. cbn [snd] in *.
  set (w' := after_challenge w) in *.
  assert (Hsn : session w' !! "auth_nonce" = Some (md5_hex (entropy w (draws w)))).
  { unfold w', after_challenge. cbn [session].
    rewrite lookup_insert_ne by discriminate. apply lookup_insert_eq. }
  assert (Hso : session w' !! "auth_opaque"
                = Some (md5_hex (entropy w (Datatypes.S (draws w))))).
  { unfold w', after_challenge. cbn [session]. apply lookup_insert_eq. }
  rewrite Hsn in Hn. rewrite Hso in Ho.
  rewrite Hn in Hrs. cbn [str default] in Hrs.
  erewrite (digest_chain_run self request a stored u r x _ _ p w' w' w'); eauto.
  - cbn [fst]. rewrite safe_str_cmp_refl. reflexivity.
  - split; [exact Hn | apply md5_hex_nonempty].
  - split; [exact Hrs | apply md5_hex_nonempty].
  - rewrite Hvn, default_verify_nonce_run, Hn, Hsn.
    rewrite bool_decide_eq_true_2 by reflexivity. reflexivity.
  - rewrite Hvo, default_verify_opaque_run, Ho, Hso.
    rewrite bool_decide_eq_true_2 by reflexivity. reflexivity.
Qed.

Lemma digest_round_trip_witness :
  fst (HTTPDigestAuth_authenticate digest_auth (get_protected (Some good_digest) [])
         (Some good_digest) (Some "secret") challenged)
  = Ret true.
Proof.
  refine (digest_round_trip digest_auth (get_protected (Some good_digest) [])
            good_digest (Some "secret") "alice" "Authentication Required"
            "/protected" "secret" w0 eq_refl eq_refl eq_refl eq_refl
            _ _ _ _ _ _ _);
    try (split; [reflexivity | discriminate]); vm_compute; reflexivity.
Defined.

Lemma digest_default_verifiers_reject_witness :
  HTTPDigestAuth_authenticate digest_auth (get_protected None [])
    (Some (cred_digest "alice" opaque0 opaque0 "d81f1b47f2571e62a9edefc86a30c1fd"))
    (Some "secret") challenged
  = (Ret false, challenged).
Proof.
  apply digest_default_verifiers_reject; [reflexivity | reflexivity |].
  left. vm_compute. discriminate.
Defined.

(** X4. The default generators never raise, and the default verifiers
    accept the value generated last and nothing else; verifying changes
    nothing. *)
Theorem default_verifiers_accept_only_issued (w : World) :
  (exists n w',
      default_generate_nonce w = (Ret n, w')
      /\ forall m, default_verify_nonce m w' = (Ret (bool_decide (m = Some n)), w'))
  /\ (exists o w',
         default_generate_opaque w = (Ret o, w')
         /\ forall m, default_verify_opaque m w' = (Ret (bool_decide (m = Some o)), w')).
Proof.
  split.
  - eexists _, _. split; [apply default_generate_nonce_run|].
    intros m. rewrite default_verify_nonce_run. cbn [session].
    rewrite lookup_insert_eq. f_equal. f_equal.
    destruct m as [s|].
    + apply eq_true_iff_eq. rewrite !bool_decide_eq_true. split; congruence.
    + symmetry. apply bool_decide_eq_false. discriminate.
  - eexists _, _. split; [apply default_generate_opaque_run|].
    intros m. rewrite default_verify_opaque_run. cbn [session].
    rewrite lookup_insert_eq. f_equal. f_equal.
    destruct m as [s|].
    + apply eq_true_iff_eq. rewrite !bool_decide_eq_true. split; congruence.
    + symmetry. apply bool_decide_eq_false. discriminate.
Qed.

(** X5. Storing HA1 is equivalent to storing the password, for a
    password that is not empty: when the credential has all its fields,
    its realm is the authenticator's and both verifiers accept,
    [authenticate] with [use_ha1_pw] and the stored value
    [generate_ha1(username, password)] gives the answer that
    [authenticate] without [use_ha1_pw] gives for the stored password. *)
Theorem digest_ha1_equivalent (self : Authenticator) (request : Request)
    (a : Authorization) (u r x n rs p : string) (w w1 w2 : World) :
  present (username a) u -> present (realm_of a) r -> present (uri a) x ->
  present (nonce a) n -> present (response a) rs ->
  p <> "" -> realm self = r ->
  verify_nonce_callback self (nonce a) w = (Ret true, w1) ->
  verify_opaque_callback self (opaque a) w1 = (Ret true, w2) ->
  forall w3,
    fst (HTTPDigestAuth_authenticate (with_use_ha1_pw self true) request (Some a)
           (returned (fst (HTTPDigestAuth_generate_ha1 self u p w3))) w)
    = fst (HTTPDigestAuth_authenticate (with_use_ha1_pw self false) request (Some a)
             (Some p) w).
Proof.
  intros Hu Hr Hx Hn Hrs Hp Hrealm Hvn Hvo w3.
  unfold HTTPDigestAuth_generate_ha1, md5. cbn [fst returned].
  rewrite (digest_chain_run (with_use_ha1_pw self true) request a _
             u r x n rs (md5_hex (u +:+ ":" +:+ realm self +:+ ":" +:+ p)) w w1 w2);
    try assumption.
  - rewrite (digest_chain_run (with_use_ha1_pw self false) request a _
               u r x n rs p w w1 w2); try assumption.
    + cbn [fst use_ha1_pw with_use_ha1_pw]. unfold expected_response, HA1.
      rewrite Hrealm. reflexivity.
    + split; [reflexivity | exact Hp].
  - split; [reflexivity | apply md5_hex_nonempty].
Qed.

Lemma digest_ha1_equivalent_witness :
  fst (HTTPDigestAuth_authenticate ha1_auth (get_protected None []) (Some good_digest)
         (Some "e1942f91cd2f94fc4115fd22fa9ca22d") challenged)
  = fst (HTTPDigestAuth_authenticate digest_auth (get_protected None [])
           (Some good_digest) (Some "secret") challenged).
Proof.
  refine (digest_ha1_equivalent digest_auth (get_protected None []) good_digest
            "alice" "Authentication Required" "/protected" nonce0
            "d81f1b47f2571e62a9edefc86a30c1fd" "secret"
            challenged challenged challenged _ _ _ _ _ _ _ _ _ w0);
    try (split; [reflexivity | discriminate]); try discriminate;
    vm_compute; reflexivity.
Defined.

(** ** Credentials and the decorated view *)

(** X6. [get_auth] hands out only credentials of the authenticator's
    own scheme, case ignored: they are the framework's, or, when the
    framework has none, the scheme and token of the header. *)
Theorem get_auth_sound (self : Authenticator) (request : Request)
    (a : Authorization) :
  HTTPAuth_get_auth self request = Ret (Some a) ->
  (exists s, scheme self = Some s /\ lower (type a) = lower s)
  /\ (authorization request = Some a
      \/ (authorization request = None
          /\ exists value token,
               getitem (request_headers request) "Authorization" = Some value
               /\ split_None_1 value = [type a; token]
               /\ params a = {[ "token" := token ]})).
Proof.
  rewrite get_auth_carried. intros H.
  destruct (carried request) as [c|] eqn:Hc; [|discriminate].
  destruct (scheme self) as [s|]; [|discriminate].
  destruct (String.eqb (lower (type c)) (lower s)) eqn:He; [|discriminate].
  injection H as ->. apply String.eqb_eq in He. split; [eauto|].
  unfold carried in Hc.
  destruct (authorization request) as [b|]; [left; congruence|].
  right. split; [reflexivity|].
  destruct (getitem (request_headers request) "Authorization") as [value|];
    [|discriminate].
  destruct (split_None_1 value) as [|t [|r [|z l]]] eqn:Hsp; try discriminate.
  injection Hc as <-. exists value, r. cbn [type params].
  split; [reflexivity|]. split; [exact Hsp | reflexivity].
Qed.

Lemma get_auth_sound_witness :
  (exists s, scheme token_auth = Some s /\ lower "bEARER" = lower s)
  /\ (authorization (get_protected None [("Authorization", "bEARER xyz")])
      = Some (mkAuthorization "bEARER" {[ "token" := "xyz" ]})
      \/ (authorization (get_protected None [("Authorization", "bEARER xyz")]) = None
          /\ exists value token,
               getitem [("Authorization", "bEARER xyz")] "Authorization" = Some value
               /\ split_None_1 value = ["bEARER"; token]
               /\ ({[ "token" := "xyz" ]} : gmap string string) = {[ "token" := token ]})).
Proof.
  exact (get_auth_sound token_auth
           (get_protected None [("Authorization", "bEARER xyz")])
           (mkAuthorization "bEARER" {[ "token" := "xyz" ]}) eq_refl).
Defined.

(** One run of the decorated view, step by step. *)
Lemma login_required_run (self : Authenticator) (f : M Response)
    (request : Request) (auth : option Authorization) (stored : option string)
    (ok : bool) (w w1 w2 : World) :
  HTTPAuth_get_auth self request = Ret auth ->
  method request <> "OPTIONS" ->
  HTTPAuth_get_auth_password self auth w = (Ret stored, w1) ->
  authenticate self request auth stored w1 = (Ret ok, w2) ->
  HTTPAuth_login_required self f request w
  = if ok then f w2 else auth_error_callback self w2.
Proof.
  intros Hget Hm Hpw Hauth. unfold HTTPAuth_login_required, bind, lift.
  rewrite Hget. apply String.eqb_neq in Hm. rewrite Hm. cbn [negb].
  rewrite Hpw, Hauth. destruct ok; reflexivity.
Qed.

Lemma get_auth_password_without_username (self : Authenticator)
    (auth : option Authorization) (w : World) :
  attr username auth = None ->
  HTTPAuth_get_auth_password self auth w = (Ret None, w).
Proof.
  intros Hu. unfold HTTPAuth_get_auth_password. rewrite Hu. cbn.
  rewrite andb_false_r. reflexivity.
Qed.

(** X7. Token login, end to end: for a request that carries only an
    Authorization header of the authenticator's scheme, the view runs
    exactly when the [verify_token] callback accepts the token cut from
    the header; the password lookup is never asked. *)
Theorem token_login (self : Authenticator) (f : M Response) (request : Request)
    (s value t token : string) (verify : string -> M bool) (ok : bool)
    (w w1 : World) :
  cls self = Token ->
  scheme self = Some s ->
  authorization request = None ->
  getitem (request_headers request) "Authorization" = Some value ->
  split_None_1 value = [t; token] ->
  lower t = lower s ->
  method request <> "OPTIONS" ->
  verify_token_callback self = Some verify ->
  verify token w = (Ret ok, w1) ->
  HTTPAuth_login_required self f request w
  = if ok then f w1 else auth_error_callback self w1.
Proof.
  intros Hc Hs Ha Hv Hsp Hl Hm Hcb Hrun.
  set (a := mkAuthorization t {[ "token" := token ]}).
  assert (Hget : HTTPAuth_get_auth self request = Ret (Some a)).
  { rewrite get_auth_carried. unfold carried. rewrite Ha, Hv, Hsp, Hs.
    cbn [type]. rewrite Hl, String.eqb_refl. reflexivity. }
  assert (Ht : truthy (Some a) = true).
  { apply (field_truthy a "token" token). apply lookup_singleton_eq. }
  apply (login_required_run self f request (Some a) None ok w w w1 Hget Hm).
  - apply get_auth_password_without_username. reflexivity.
  - unfold authenticate. rewrite Hc. unfold HTTPTokenAuth_authenticate, bind.
    rewrite Ht. cbn [attr params a]. rewrite lookup_singleton_eq.
    cbn [ret]. rewrite Hcb. exact Hrun.
Qed.

Lemma token_login_witness :
  HTTPAuth_login_required token_auth ok_view (bearer_request "xyz") w0
  = (Ret (mkResponse 200 [] "hello"), w0)
  /\ HTTPAuth_login_required token_auth ok_view (bearer_request "abc") w0
     = auth_error_callback token_auth w0.
Proof.
  split.
  - refine (token_login token_auth ok_view (bearer_request "xyz") "Bearer"
              "Bearer xyz" "Bearer" "xyz" (fun t => ret (String.eqb t "xyz")) true
              w0 w0 eq_refl eq_refl eq_refl eq_refl eq_refl eq_refl _ eq_refl eq_refl).
    discriminate.
  - refine (token_login token_auth ok_view (bearer_request "abc") "Bearer"
              "Bearer abc" "Bearer" "abc" (fun t => ret (String.eqb t "xyz")) false
              w0 w0 eq_refl eq_refl eq_refl eq_refl eq_refl eq_refl _ eq_refl eq_refl).
    discriminate.
Defined.

(** X8. The edges of Token [authenticate]: a credential that holds no
    token (one the framework parsed as Basic, say) raises [KeyError]
    whatever is registered; without a credential the callback is asked
    about the empty token; without a callback the answer is [False]. *)
Theorem token_authenticate_edges (self : Authenticator)
    (auth : option Authorization) (stored : option string) (w : World) :
  (truthy auth = true -> attr (fun a => params a !! "token") auth = None ->
   HTTPTokenAuth_authenticate self auth stored w = (Raise KeyError, w))
  /\ (forall verify, truthy auth = false ->
        verify_token_callback self = Some verify ->
        HTTPTokenAuth_authenticate self auth stored w = verify "" w)
  /\ (verify_token_callback self = None ->
      truthy auth = false
      \/ (exists t, attr (fun a => params a !! "token") auth = Some t) ->
      HTTPTokenAuth_authenticate self auth stored w = (Ret false, w)).
Proof.
  unfold HTTPTokenAuth_authenticate, bind. split; [|split].
  - intros Ht Hno. rewrite Ht, Hno. reflexivity.
  - intros verify Ht Hcb. rewrite Ht, Hcb. reflexivity.
  - intros Hcb [Ht | (t & Htok)].
    + rewrite Ht, Hcb. reflexivity.
    + destruct (truthy auth); [rewrite Htok|]; cbn [ret]; rewrite Hcb; reflexivity.
Qed.

Lemma token_authenticate_edges_witness :
  HTTPTokenAuth_authenticate token_auth (Some (cred_basic "alice" "secret")) None w0
  = (Raise KeyError, w0)
  /\ HTTPTokenAuth_authenticate token_auth None None w0 = (Ret false, w0)
  /\ HTTPTokenAuth_authenticate (HTTPTokenAuth (Some "Bearer") None)
       (Some (cred_token "xyz")) None w0
     = (Ret false, w0).
Proof.
  split; [|split].
  - exact (proj1 (token_authenticate_edges token_auth
                    (Some (cred_basic "alice" "secret")) None w0) eq_refl eq_refl).
  - exact (proj1 (proj2 (token_authenticate_edges token_auth None None w0))
                 (fun t => ret (String.eqb t "xyz")) eq_refl eq_refl).
  - refine (proj2 (proj2 (token_authenticate_edges (HTTPTokenAuth (Some "Bearer") None)
                            (Some (cred_token "xyz")) None w0)) eq_refl _).
    right. exists "xyz". reflexivity.
Defined.

(** X9. OPTIONS requests pass: with a scheme configured, the decorated
    view, plain or with roles, runs the view on an OPTIONS request
    without asking any callback, whatever the request carries. *)
Theorem options_pass (self : Authenticator) (f : M Response) (request : Request)
    (s : string) (roles : option (list string)) (use_all : bool) (w : World) :
  scheme self = Some s ->
  method request = "OPTIONS" ->
  HTTPAuth_login_required self f request w = f w
  /\ HTTPRoleAuthMixin_login_required self roles use_all f request w = f w.
Proof.
  intros Hs Hm.
  unfold HTTPAuth_login_required, HTTPRoleAuthMixin_login_required, bind, lift.
  rewrite get_auth_carried, Hs, Hm.
  destruct (carried request) as [a|];
    [destruct (String.eqb (lower (type a)) (lower s))|]; split; reflexivity.
Qed.

Lemma options_pass_witness :
  HTTPAuth_login_required basic_auth ok_view (mkRequest "OPTIONS" None []) w0
  = ok_view w0
  /\ HTTPRoleAuthMixin_login_required basic_auth (Some ["admin"]) true ok_view
       (mkRequest "OPTIONS" None []) w0
     = ok_view w0.
Proof.
  exact (options_pass basic_auth ok_view (mkRequest "OPTIONS" None []) "Basic"
           (Some ["admin"]) true w0 eq_refl eq_refl).
Defined.

(** ** Basic authentication through the decorated view *)

(** X10. [get_auth_password] asks the lookup callback exactly when the
    credential is there and has a non-empty username, and then returns
    what the callback returns for that username; otherwise the stored
    password is [None] and no callback runs. *)
Theorem get_auth_password_cases (self : Authenticator)
    (auth : option Authorization) (w : World) :
  (forall a u, auth = Some a -> present (username a) u ->
               HTTPAuth_get_auth_password self auth w = get_password_callback self u w)
  /\ (auth = None \/ absent (attr username auth) ->
      HTTPAuth_get_auth_password self auth w = (Ret None, w)).
Proof.
  split.
  - intros a u -> Hu. apply get_auth_password_lookup, Hu.
  - intros [-> | Hu]; [reflexivity|].
    apply get_auth_password_no_username, Hu.
Qed.

Lemma get_auth_password_cases_witness :
  HTTPAuth_get_auth_password basic_auth (Some (cred_basic "alice" "x")) w0
  = (Ret (Some "secret"), w0)
  /\ HTTPAuth_get_auth_password
       (get_password basic_auth (fun _ => ret (Some "secret")))
       (Some (cred_basic "" "secret")) w0
     = (Ret None, w0).
Proof.
  split.
  - refine (proj1 (get_auth_password_cases basic_auth (Some (cred_basic "alice" "x")) w0)
                  (cred_basic "alice" "x") "alice" eq_refl _).
    split; [reflexivity | discriminate].
  - refine (proj2 (get_auth_password_cases
                     (get_password basic_auth (fun _ => ret (Some "secret")))
                     (Some (cred_basic "" "secret")) w0) _).
    right. right. reflexivity.
Defined.

(** X11. Basic login, end to end: with no verify and no hash callback,
    a request whose framework credentials are of the authenticator's
    scheme and name a user runs the view exactly when the password
    equals what the lookup callback returns for that user. *)
Theorem basic_login_decides (self : Authenticator) (f : M Response)
    (request : Request) (a : Authorization) (s u : string)
    (stored : option string) (w w1 : World) :
  cls self = Basic ->
  verify_password_callback self = None ->
  hash_password_callback self = None ->
  scheme self = Some s ->
  authorization request = Some a ->
  lower (type a) = lower s ->
  present (username a) u ->
  method request <> "OPTIONS" ->
  get_password_callback self u w = (Ret stored, w1) ->
  HTTPAuth_login_required self f request w
  = if secrets_agree (password a) stored then f w1 else auth_error_callback self w1.
Proof.
  intros Hc Hv Hh Hs Ha Hl Hu Hm Hlook.
  assert (Hget : HTTPAuth_get_auth self request = Ret (Some a)).
  { rewrite get_auth_carried. unfold carried. rewrite Ha, Hs, Hl, String.eqb_refl.
    reflexivity. }
  assert (Ht : truthy (Some a) = true)
    by (destruct Hu as [Hu _]; eapply field_truthy, Hu).
  apply (login_required_run self f request (Some a) stored _ w w1 w1 Hget Hm).
  - rewrite (get_auth_password_lookup self a u w Hu). exact Hlook.
  - unfold authenticate. rewrite Hc. unfold HTTPBasicAuth_authenticate.
    rewrite Hv, Hh, Ht. cbn [negb attr]. unfold bind, ret, secrets_agree.
    destruct (password a) as [c|], stored as [st|]; try reflexivity.
    rewrite safe_str_cmp_decides. reflexivity.
Qed.

Lemma basic_login_decides_witness :
  HTTPAuth_login_required basic_auth ok_view
    (get_protected (Some (cred_basic "alice" "secret")) []) w0
  = ok_view w0
  /\ HTTPAuth_login_required basic_auth ok_view
       (get_protected (Some (cred_basic "bob" "secret")) []) w0
     = auth_error_callback basic_auth w0.
Proof.
  split.
  - refine (basic_login_decides basic_auth ok_view
              (get_protected (Some (cred_basic "alice" "secret")) [])
              (cred_basic "alice" "secret") "Basic" "alice" (Some "secret") w0 w0
              eq_refl eq_refl eq_refl eq_refl eq_refl eq_refl _ _ eq_refl).
    + split; [reflexivity | discriminate].
    + discriminate.
  - refine (basic_login_decides basic_auth ok_view
              (get_protected (Some (cred_basic "bob" "secret")) [])
              (cred_basic "bob" "secret") "Basic" "bob" None w0 w0
              eq_refl eq_refl eq_refl eq_refl eq_refl eq_refl _ _ eq_refl).
    + split; [reflexivity | discriminate].
    + discriminate.
Defined.

(** X12. The hash callback is tried with one argument first and with
    (username, password) only when that raises [TypeError]: the value it
    returns is what is compared with the stored secret, a [None] it
    returns fails, and any other exception of the first call
    propagates. *)
Theorem basic_hash_fallback (self : Authenticator) (a : Authorization)
    (stored : option string) (h : HashCallback) (w w1 : World) :
  verify_password_callback self = None ->
  hash_password_callback self = Some h ->
  truthy (Some a) = true ->
  (forall hashed_pw,
      call1 h (password a) w = (Ret hashed_pw, w1) ->
      HTTPBasicAuth_authenticate self (Some a) stored w
      = (Ret (secrets_agree hashed_pw stored), w1))
  /\ (forall hashed_pw w2,
         call1 h (password a) w = (Raise TypeError, w1) ->
         call2 h (username a) (password a) w1 = (Ret hashed_pw, w2) ->
         HTTPBasicAuth_authenticate self (Some a) stored w
         = (Ret (secrets_agree hashed_pw stored), w2))
  /\ (forall e,
         e <> TypeError ->
         call1 h (password a) w = (Raise e, w1) ->
         HTTPBasicAuth_authenticate self (Some a) stored w = (Raise e, w1)).
Proof.
  intros Hv Hh Ht.
  assert (Hcmp : forall c, match c, stored with
                           | Some c, Some s => safe_str_cmp c s
                           | _, _ => false
                           end = secrets_agree c stored).
  { intros [c|]; destruct stored as [s|]; try reflexivity.
    simpl. apply safe_str_cmp_decides. }
  unfold HTTPBasicAuth_authenticate.
  rewrite Hv, Hh, Ht. cbn [negb attr]. unfold bind, try_except, ret.
  split; [|split].
  - intros c H1. rewrite H1, Hcmp. reflexivity.
  - intros c w2 H1 H2. rewrite H1.
    rewrite bool_decide_eq_true_2 by reflexivity. rewrite H2, Hcmp. reflexivity.
  - intros e He H1. rewrite H1.
    rewrite bool_decide_eq_false_2 by exact He. reflexivity.
Qed.

Lemma basic_hash_fallback_witness :
  let salted :=
    mkHashCallback (fun _ => raise TypeError)
                   (fun u p => ret (Some (str u +:+ "$" +:+ str p))) in
  HTTPBasicAuth_authenticate (hash_password basic_auth salted)
    (Some (cred_basic "alice" "secret")) (Some "alice$secret") w0
  = (Ret true, w0).
Proof.
  exact (proj1 (proj2 (basic_hash_fallback
           (hash_password basic_auth
              (mkHashCallback (fun _ => raise TypeError)
                 (fun u p => ret (Some (str u +:+ "$" +:+ str p)))))
           (cred_basic "alice" "secret") (Some "alice$secret")
           (mkHashCallback (fun _ => raise TypeError)
              (fun u p => ret (Some (str u +:+ "$" +:+ str p))))
           w0 w0 eq_refl eq_refl eq_refl))
         (Some "alice$secret") w0 eq_refl eq_refl).
Defined.

(** X13. A [verify_password] callback is authoritative: the view runs
    exactly when the callback accepts the credential's username and
    password, or two empty strings when the request carries no
    credential; the stored password and the hash callback play no
    part, though the lookup callback has been asked before. *)
Theorem basic_verify_authoritative (self : Authenticator) (f : M Response)
    (request : Request) (auth : option Authorization)
    (verify : option string -> option string -> M bool)
    (stored : option string) (ok : bool) (w w1 w2 : World) :
  cls self = Basic ->
  verify_password_callback self = Some verify ->
  HTTPAuth_get_auth self request = Ret auth ->
  method request <> "OPTIONS" ->
  HTTPAuth_get_auth_password self auth w = (Ret stored, w1) ->
  verify (if truthy auth then attr username auth else Some "")
         (if truthy auth then attr password auth else Some "") w1 = (Ret ok, w2) ->
  HTTPAuth_login_required self f request w
  = if ok then f w2 else auth_error_callback self w2.
Proof.
  intros Hc Hv Hget Hm Hpw Hrun.
  apply (login_required_run self f request auth stored ok w w1 w2 Hget Hm Hpw).
  unfold authenticate. rewrite Hc. unfold HTTPBasicAuth_authenticate.
  rewrite Hv. exact Hrun.
Qed.

Lemma basic_verify_authoritative_witness :
  let anonymous := fun (u p : option string) => ret (bool_decide (u = Some "")) in
  HTTPAuth_login_required (verify_password basic_auth anonymous) ok_view
    (get_protected None []) w0
  = ok_view w0.
Proof.
  refine (basic_verify_authoritative
            (verify_password basic_auth
               (fun (u p : option string) => ret (bool_decide (u = Some ""))))
            ok_view (get_protected None []) None
            (fun (u p : option string) => ret (bool_decide (u = Some "")))
            None true w0 w0 w0 eq_refl eq_refl eq_refl _ eq_refl eq_refl).
  discriminate.
Defined.

(** ** The responder's invariants *)

Lemma keys_setitem (h : Headers) (k v : string) : k ∈ keys (setitem h k v).
Proof.
  induction h as [|[k' v'] h IH]; simpl.
  - apply list_elem_of_here.
  - destruct (same_name k' k); simpl.
    + apply list_elem_of_here.
    + apply list_elem_of_further, IH.
Qed.

Lemma decorated_run (self : Authenticator) (f : M Response) (res : Response)
    (w w1 : World) :
  f w = (Ret res, w1) ->
  error_handler_decorated self f w
  = if bool_decide ("WWW-Authenticate" ∈ keys (headers res))
    then (Ret (mkResponse (final_status (status_code res)) (headers res) (body res)), w1)
    else match authenticate_header self w1 with
         | (Ret challenge, w2) =>
             (Ret (mkResponse (final_status (status_code res))
                     (setitem (headers res) "WWW-Authenticate" challenge)
                     (body res)), w2)
         | (Raise e, w2) => (Raise e, w2)
         end.
Proof.
  intros Hf. unfold error_handler_decorated, bind. rewrite Hf.
  unfold final_status, set_status_code, set_header, ret.
  destruct res as [c hs b]. cbn [status_code headers body].
  destruct (c =? 200); cbn [status_code headers body];
    destruct (bool_decide ("WWW-Authenticate" ∈ keys hs)); cbn [negb];
    try reflexivity;
    destruct (authenticate_header self w1) as [[ch|e] w2]; reflexivity.
Qed.

Lemma final_status_not_200 (c : Z) : final_status c <> 200.
Proof.
  unfold final_status. destruct (c =? 200) eqn:Hc; [discriminate|].
  apply Z.eqb_neq, Hc.
Qed.

Lemma decorated_post (self : Authenticator) (f : M Response) (res : Response)
    (w w' : World) :
  error_handler_decorated self f w = (Ret res, w') ->
  status_code res <> 200 /\ "WWW-Authenticate" ∈ keys (headers res).
Proof.
  destruct (f w) as [[r|e] w1] eqn:Hf.
  - rewrite (decorated_run self f r w w1 Hf).
    destruct (bool_decide ("WWW-Authenticate" ∈ keys (headers r))) eqn:Hin.
    + apply bool_decide_eq_true in Hin. intros [= <- <-]. cbn [status_code headers].
      split; [apply final_status_not_200 | exact Hin].
    + destruct (authenticate_header self w1) as [[ch|e] w2]; [|discriminate].
      intros [= <- <-]. cbn [status_code headers].
      split; [apply final_status_not_200 | apply keys_setitem].
  - unfold error_handler_decorated, bind. rewrite Hf. discriminate.
Qed.

(** X14. Whatever the error callback returns, a response that leaves
    the responder never has status 200 and always has a header stored
    as WWW-Authenticate. *)
Theorem error_response_invariant (self : Authenticator) (res : Response)
    (w w' : World) :
  auth_error_callback self w = (Ret res, w') ->
  status_code res <> 200
  /\ "WWW-Authenticate" ∈ keys (headers res)
  /\ is_Some (getitem (headers res) "WWW-Authenticate").
Proof.
  intros H. unfold auth_error_callback in H.
  destruct (decorated_post self (error_callback self) res w w' H) as [Hs Hk].
  split; [exact Hs|]. split; [exact Hk|].
  clear -Hk. unfold keys in Hk. induction (headers res) as [|[k v] h IH]; simpl in *.
  - inversion Hk.
  - apply elem_of_cons in Hk as [<- | Hk].
    + unfold same_name. rewrite String.eqb_refl. eauto.
    + destruct (same_name k "WWW-Authenticate"); [eauto | apply IH, Hk].
Qed.

Lemma error_response_invariant_witness :
  status_code (mkResponse 401
                 [("WWW-Authenticate", "Custom")] "denied") <> 200
  /\ "WWW-Authenticate" ∈ keys [("WWW-Authenticate", "Custom")]
  /\ is_Some (getitem [("WWW-Authenticate", "Custom")] "WWW-Authenticate").
Proof.
  exact (error_response_invariant
           (error_handler basic_auth
              (ret (mkResponse 200 [("WWW-Authenticate", "Custom")] "denied")))
           (mkResponse 401 [("WWW-Authenticate", "Custom")] "denied")
           w0 w0 eq_refl).
Defined.

(** X15. Registering a callback that is already wrapped changes
    nothing: the responder applied to its own output returns it as it
    is, with no second challenge generated. *)
Theorem error_handler_idempotent (self : Authenticator) (f : M Response)
    (w : World) :
  error_handler_decorated self (error_handler_decorated self f) w
  = error_handler_decorated self f w.
Proof.
  destruct (error_handler_decorated self f w) as [[res|e] w1] eqn:Hin.
  - destruct (decorated_post self f res w w1 Hin) as [Hs Hk].
    rewrite (decorated_run self _ res w w1 Hin).
    rewrite bool_decide_eq_true_2 by exact Hk.
    unfold final_status. apply Z.eqb_neq in Hs. rewrite Hs.
    destruct res; reflexivity.
  - unfold error_handler_decorated at 1. unfold bind. rewrite Hin. reflexivity.
Qed.

(** ** Roles through the decorated view *)

(** X16. What ALL mode computes for a credential that is there: whether
    every role the callback resolves for it is among the endpoint's
    roles, so an identity without roles passes and an endpoint without
    roles admits only such identities. *)
Theorem authorize_all_mode_subset (self : Authenticator)
    (callback : Authorization -> M (list string)) (a : Authorization)
    (required identity : list string) (w w' : World) :
  get_auth_roles_callback self = Some callback ->
  truthy (Some a) = true ->
  callback a w = (Ret identity, w') ->
  exists b,
    HTTPRoleAuthMixin_authorize self (Some a) (Some required) true w = (Ret b, w')
    /\ (b = true <-> forall r, r ∈ identity -> r ∈ required)
    /\ (identity = [] -> b = true)
    /\ (required = [] -> (b = true <-> identity = [])).
Proof.
  intros Hreg Ht Hcb. eexists. split.
  - apply (authorize_all_mode_computes self callback Hreg a required identity w w' Ht Hcb).
  - assert (Hiff : forallb (fun role => bool_decide (role ∈ required)) identity = true
                   <-> forall r, r ∈ identity -> r ∈ required).
    { rewrite forallb_forall. split.
      - intros H r Hr. apply list_elem_of_In, H in Hr.
        apply bool_decide_eq_true in Hr. exact Hr.
      - intros H r Hr. apply bool_decide_eq_true, H, list_elem_of_In, Hr. }
    split; [exact Hiff|]. split.
    + intros ->. reflexivity.
    + intros ->. rewrite Hiff. split.
      * intros H. destruct identity as [|r rest]; [reflexivity|].
        exfalso. specialize (H r (list_elem_of_here r rest)). inversion H.
      * intros -> r Hr. inversion Hr.
Qed.

Lemma authorize_all_mode_subset_witness :
  exists b,
    HTTPRoleAuthMixin_authorize (roles_auth ["a"; "c"])
      (Some (cred_basic "alice" "secret")) (Some ["a"]) true w0 = (Ret b, w0)
    /\ (b = true <-> forall r, r ∈ ["a"; "c"] -> r ∈ ["a"])
    /\ (["a"; "c"] = [] -> b = true)
    /\ (["a"] = [] -> (b = true <-> ["a"; "c"] = [])).
Proof.
  exact (authorize_all_mode_subset (roles_auth ["a"; "c"]) (fun _ => ret ["a"; "c"])
           (cred_basic "alice" "secret") ["a"] ["a"; "c"] w0 w0
           eq_refl eq_refl eq_refl).
Defined.

(** X17. The edges of [authorize]: without a credential it answers
    [False] and asks no callback, so a request that [verify_password]
    accepts without credentials still fails a role check; with a
    credential and no roles callback registered it raises [TypeError]. *)
Theorem authorize_edges (self : Authenticator) (request : Request)
    (auth : option Authorization) (roles : option (list string))
    (use_all : bool) (w : World) :
  (truthy auth = false ->
   HTTPRoleAuthMixin_authorize self auth roles use_all w = (Ret false, w)
   /\ forall stored w1,
        authenticate self request auth stored w = (Ret true, w1) ->
        HTTPRoleAuthMixin_verify self request roles use_all auth stored w
        = (Ret false, w1))
  /\ (truthy auth = true ->
      get_auth_roles_callback self = None ->
      HTTPRoleAuthMixin_authorize self auth roles use_all w = (Raise TypeError, w)).
Proof.
  split.
  - intros Ht.
    assert (Hno : forall w', HTTPRoleAuthMixin_authorize self auth roles use_all w'
                             = (Ret false, w')).
    { intros w'. unfold HTTPRoleAuthMixin_authorize.
      destruct auth as [a|]; [rewrite Ht|]; reflexivity. }
    split; [apply Hno|].
    intros stored w1 Hauth. unfold HTTPRoleAuthMixin_verify, bind.
    rewrite Hauth. apply Hno.
  - intros Ht Hcb. unfold HTTPRoleAuthMixin_authorize.
    destruct auth as [a|]; [|discriminate].
    rewrite Ht, Hcb. reflexivity.
Qed.

Lemma authorize_edges_witness :
  let anonymous := fun (u p : option string) => ret true in
  HTTPRoleAuthMixin_verify (verify_password (roles_auth ["admin"]) anonymous)
    (get_protected None []) (Some ["admin"]) false None None w0
  = (Ret false, w0)
  /\ HTTPRoleAuthMixin_authorize (HTTPBasicRoleAuth None None)
       (Some (cred_basic "alice" "secret")) (Some ["admin"]) false w0
     = (Raise TypeError, w0).
Proof.
  split.
  - exact (proj2 (proj1 (authorize_edges
             (verify_password (roles_auth ["admin"]) (fun _ _ => ret true))
             (get_protected None []) None (Some ["admin"]) false w0) eq_refl)
             None w0 eq_refl).
  - exact (proj2 (authorize_edges (HTTPBasicRoleAuth None None) (get_protected None [])
                    (Some (cred_basic "alice" "secret")) (Some ["admin"]) false w0)
                 eq_refl eq_refl).
Defined.

(** X18. Role login, end to end, in ANY mode: the roles callback is
    asked only after [authenticate] has accepted, and the view runs
    exactly when it then resolves a role that the endpoint requires. *)
Theorem role_login_decides (self : Authenticator) (f : M Response)
    (request : Request) (a : Authorization)
    (callback : Authorization -> M (list string))
    (required identity : list string) (stored : option string)
    (w w1 w2 w3 : World) :
  HTTPAuth_get_auth self request = Ret (Some a) ->
  truthy (Some a) = true ->
  method request <> "OPTIONS" ->
  HTTPAuth_get_auth_password self (Some a) w = (Ret stored, w1) ->
  get_auth_roles_callback self = Some callback ->
  (authenticate self request (Some a) stored w1 = (Ret false, w2) ->
   HTTPRoleAuthMixin_login_required self (Some required) false f request w
   = auth_error_callback self w2)
  /\ (authenticate self request (Some a) stored w1 = (Ret true, w2) ->
      callback a w2 = (Ret identity, w3) ->
      HTTPRoleAuthMixin_login_required self (Some required) false f request w
      = if any_required_present required identity then f w3
        else auth_error_callback self w3).
Proof.
  intros Hget Ht Hm Hpw Hreg.
  apply String.eqb_neq in Hm.
  unfold HTTPRoleAuthMixin_login_required, HTTPRoleAuthMixin_verify, bind, lift.
  rewrite Hget, Hm. cbn [negb]. rewrite Hpw. split.
  - intros Hauth. rewrite Hauth. reflexivity.
  - intros Hauth Hcb. rewrite Hauth.
    rewrite (authorize_unfold self callback Hreg a (Some required) false identity
               w2 w3 Ht Hcb).
    rewrite py_any_collection, any_symmetric.
    destruct (any_required_present required identity); reflexivity.
Qed.

Lemma role_login_decides_witness :
  HTTPRoleAuthMixin_login_required (roles_auth ["editor"]) (Some ["admin"; "editor"])
    false ok_view (get_protected (Some (cred_basic "alice" "secret")) []) w0
  = ok_view w0
  /\ HTTPRoleAuthMixin_login_required (roles_auth ["editor"]) (Some ["admin"; "editor"])
       false ok_view (get_protected (Some (cred_basic "alice" "wrong")) []) w0
     = auth_error_callback (roles_auth ["editor"]) w0.
Proof.
  split.
  - refine (proj2 (role_login_decides (roles_auth ["editor"]) ok_view
              (get_protected (Some (cred_basic "alice" "secret")) [])
              (cred_basic "alice" "secret") (fun _ => ret ["editor"])
              ["admin"; "editor"] ["editor"] (Some "secret") w0 w0 w0 w0
              eq_refl eq_refl _ eq_refl eq_refl) eq_refl eq_refl).
    discriminate.
  - refine (proj1 (role_login_decides (roles_auth ["editor"]) ok_view
              (get_protected (Some (cred_basic "alice" "wrong")) [])
              (cred_basic "alice" "wrong") (fun _ => ret ["editor"])
              ["admin"; "editor"] ["editor"] (Some "secret") w0 w0 w0 w0
              eq_refl eq_refl _ eq_refl eq_refl) eq_refl).
    discriminate.
Defined.

(** ** Digest through the decorated view *)

Lemma digest_default_accepts (self : Authenticator) (request : Request)
    (a : Authorization) (stored : option string)
    (u r x n o rs p : string) (w : World) :
  verify_nonce_callback self = default_verify_nonce ->
  verify_opaque_callback self = default_verify_opaque ->
  present (username a) u -> present (realm_of a) r -> present (uri a) x ->
  present (nonce a) n -> present (response a) rs -> present stored p ->
  session w !! "auth_nonce" = Some n ->
  opaque a = Some o -> session w !! "auth_opaque" = Some o ->
  HTTPDigestAuth_authenticate self request (Some a) stored w
  = (Ret (safe_str_cmp
            (expected_response (use_ha1_pw self) u r p (method request) x n) rs),
     after_md5 w (chain_inputs (use_ha1_pw self) u r p (method request) x n)).
Proof.
  intros Hvn Hvo Hu Hr Hx Hn Hrs Hp Hsn Ho Hso.
  apply (digest_chain_run self request a stored u r x n rs p w w w);
    try assumption.
  - rewrite Hvn, default_verify_nonce_run. destruct Hn as [-> _].
    rewrite bool_decide_eq_true_2 by exact Hsn. reflexivity.
  - rewrite Hvo, default_verify_opaque_run, Ho.
    rewrite bool_decide_eq_true_2 by exact Hso. reflexivity.
Qed.

(** X19. Digest login, end to end, with the default verifiers: when
    the lookup callback returns a secret that is not empty, a request
    whose credentials are of the authenticator's scheme, have non-empty
    username, realm, uri and nonce, echo the session's nonce and opaque
    and carry the digest chain's response for that secret runs the
    view; the only trace left besides the lookup's is the hashing. *)
Theorem digest_login_accepts (self : Authenticator) (f : M Response)
    (request : Request) (a : Authorization) (stored : option string)
    (s u r x n o p : string) (w w1 : World) :
  cls self = Digest ->
  verify_nonce_callback self = default_verify_nonce ->
  verify_opaque_callback self = default_verify_opaque ->
  scheme self = Some s ->
  authorization request = Some a ->
  lower (type a) = lower s ->
  method request <> "OPTIONS" ->
  present (username a) u -> present (realm_of a) r -> present (uri a) x ->
  present (nonce a) n -> opaque a = Some o ->
  get_password_callback self u w = (Ret stored, w1) ->
  present stored p ->
  session w1 !! "auth_nonce" = Some n ->
  session w1 !! "auth_opaque" = Some o ->
  response a
  = Some (expected_response (use_ha1_pw self) u r p (method request) x n) ->
  HTTPAuth_login_required self f request w
  = f (after_md5 w1 (chain_inputs (use_ha1_pw self) u r p (method request) x n)).
Proof.
  intros Hc Hvn Hvo Hs Ha Hl Hm Hu Hr Hx Hn Ho Hlook Hp Hsn Hso Hrs.
  assert (Hget : HTTPAuth_get_auth self request = Ret (Some a)).
  { rewrite get_auth_carried. unfold carried. rewrite Ha, Hs, Hl, String.eqb_refl.
    reflexivity. }
  rewrite (login_required_run self f request (Some a) stored true w w1
             (after_md5 w1 (chain_inputs (use_ha1_pw self) u r p (method request) x n))
             Hget Hm).
  - reflexivity.
  - rewrite (get_auth_password_lookup self a u w Hu). exact Hlook.
  - unfold authenticate. rewrite Hc.
    rewrite (digest_default_accepts self request a stored u r x n o
               (expected_response (use_ha1_pw self) u r p (method request) x n)
               p w1); try assumption.
    + rewrite safe_str_cmp_refl. reflexivity.
    + split; [exact Hrs | apply md5_hex_nonempty].
Qed.

Lemma digest_login_accepts_witness :
  HTTPAuth_login_required digest_auth ok_view
    (get_protected (Some good_digest) []) challenged
  = ok_view (after_md5 challenged
               (chain_inputs false "alice" "Authentication Required" "secret"
                             "GET" "/protected" nonce0)).
Proof.
  refine (digest_login_accepts digest_auth ok_view (get_protected (Some good_digest) [])
            good_digest (Some "secret") "Digest" "alice" "Authentication Required"
            "/protected" nonce0 opaque0 "secret" challenged challenged
            eq_refl eq_refl eq_refl eq_refl eq_refl eq_refl _ _ _ _ _ eq_refl eq_refl
            _ _ _ _);
    try (split; [reflexivity | discriminate]); try discriminate;
    vm_compute; reflexivity.
Defined.

(** X20. A rejected Digest request is challenged afresh: when
    [authenticate] fails and the error callback sets no WWW-Authenticate
    header of its own, the response carries a newly drawn nonce and
    opaque, and these replace the ones in the session. *)
Theorem digest_rejection_rechallenges (self : Authenticator) (f : M Response)
    (request : Request) (auth : option Authorization) (stored : option string)
    (res : Response) (w w1 w2 w3 : World) :
  cls self = Digest ->
  generate_nonce_callback self = default_generate_nonce ->
  generate_opaque_callback self = default_generate_opaque ->
  HTTPAuth_get_auth self request = Ret auth ->
  method request <> "OPTIONS" ->
  HTTPAuth_get_auth_password self auth w = (Ret stored, w1) ->
  HTTPDigestAuth_authenticate self request auth stored w1 = (Ret false, w2) ->
  error_callback self w2 = (Ret res, w3) ->
  "WWW-Authenticate" ∉ keys (headers res) ->
  let n := md5_hex (entropy w3 (draws w3)) in
  let o := md5_hex (entropy w3 (Datatypes.S (draws w3))) in
  HTTPAuth_login_required self f request w
  = (Ret (mkResponse (final_status (status_code res))
            (setitem (headers res) "WWW-Authenticate" (digest_challenge_string self n o))
            (body res)),
     after_challenge w3)
  /\ session (after_challenge w3) !! "auth_nonce" = Some n
  /\ session (after_challenge w3) !! "auth_opaque" = Some o.
Proof.
  intros Hc Hgn Hgo Hget Hm Hpw Hauth Hcb Hnot n o. split; [|split].
  - rewrite (login_required_run self f request auth stored false w w1 w2 Hget Hm Hpw).
    + unfold auth_error_callback. rewrite (decorated_run self _ res w2 w3 Hcb).
      rewrite bool_decide_eq_false_2 by exact Hnot.
      unfold authenticate_header. rewrite Hc.
      rewrite (digest_challenge_run self w3 Hgn Hgo). reflexivity.
    + unfold authenticate. rewrite Hc. exact Hauth.
  - unfold after_challenge. cbn [session].
    rewrite lookup_insert_ne by discriminate. apply lookup_insert_eq.
  - unfold after_challenge. cbn [session]. apply lookup_insert_eq.
Qed.

Lemma digest_rejection_rechallenges_witness :
  HTTPAuth_login_required digest_auth ok_view (get_protected None []) challenged
  = (Ret (mkResponse 401
            [("Content-Type", "text/html; charset=utf-8"); ("Content-Length", "19");
             ("WWW-Authenticate",
              digest_challenge_string digest_auth (md5_hex "0.125") (md5_hex "0.125"))]
            "Unauthorized Access"),
     after_challenge challenged)
  /\ session (after_challenge challenged) !! "auth_nonce" = Some (md5_hex "0.125")
  /\ session (after_challenge challenged) !! "auth_opaque" = Some (md5_hex "0.125").
Proof.
  refine (digest_rejection_rechallenges digest_auth ok_view (get_protected None [])
            None None
            (mkResponse 200
               [("Content-Type", "text/html; charset=utf-8"); ("Content-Length", "19")]
               "Unauthorized Access")
            challenged challenged challenged challenged
            eq_refl eq_refl eq_refl eq_refl _ eq_refl eq_refl eq_refl _).
  - discriminate.
  - intros H. repeat (apply elem_of_cons in H as [H | H]; [discriminate|]).
    inversion H.
Defined.

(** ** Dispatch through the decorated view *)



